(** * DocumentTools: the kernel tools of [src/backend/kernel_tools/document_tools.py]

    A shallow embedding of the class [DocumentTools]: its two tool functions
    ([read_document_contents], [save_to_excel]) and its two reflection helpers
    ([get_all_kernel_functions], [generate_tools_json_doc]), together with the
    parts of the Python runtime they call ([str] methods, [inspect.getmembers],
    [json.dumps]).

    Python [str] values are modelled by [string]: a character stands for its
    code point, so the model covers the code points below 256, and the case
    mappings cover the ASCII letters, which is what the identifiers, type
    names and docstrings of this program are made of. *)

From Stdlib Require Import String Ascii List Bool Arith Lia Permutation Sorted.
From Stdlib Require Import DecimalString.
From Stdlib Require DecimalNat.
From stdpp Require Import base option gmap strings.
Import ListNotations.
Local Open Scope list_scope.
Local Open Scope string_scope.

(** ** Python string operations *)

Module PyStr.

(** [s.startswith(p)] *)
Definition startswith (s p : string) : bool := String.prefix p s.

(** [sub in s] for two strings: [sub] occurs at some position of [s]. *)
Fixpoint contains (sub s : string) : bool :=
  String.prefix sub s ||
  match s with
  | EmptyString => false
  | String _ rest => contains sub rest
  end.

(** [s.replace(old, new)] for one-character [old] and [new], the only way the
    program calls it. *)
Fixpoint replace (old new : ascii) (s : string) : string :=
  match s with
  | EmptyString => EmptyString
  | String c rest =>
      String (if Ascii.eqb c old then new else c) (replace old new rest)
  end.

(** [c.isspace()] on the code points below 256. *)
Definition isspace (c : ascii) : bool :=
  let n := nat_of_ascii c in
  ((9 <=? n) && (n <=? 13) || (28 <=? n) && (n <=? 32)
   || (n =? 133) || (n =? 160))%nat.

Fixpoint lstrip (s : string) : string :=
  match s with
  | EmptyString => EmptyString
  | String c rest => if isspace c then lstrip rest else s
  end.

Fixpoint rstrip (s : string) : string :=
  match s with
  | EmptyString => EmptyString
  | String c rest =>
      match rstrip rest with
      | EmptyString => if isspace c then EmptyString else String c EmptyString
      | r => String c r
      end
  end.

(** [s.strip()] *)
Definition strip (s : string) : string := rstrip (lstrip s).

Definition isupper (c : ascii) : bool :=
  let n := nat_of_ascii c in ((65 <=? n) && (n <=? 90))%nat.

Definition islower (c : ascii) : bool :=
  let n := nat_of_ascii c in ((97 <=? n) && (n <=? 122))%nat.

Definition to_lower (c : ascii) : ascii :=
  if isupper c then ascii_of_nat (nat_of_ascii c + 32) else c.

Definition to_upper (c : ascii) : ascii :=
  if islower c then ascii_of_nat (nat_of_ascii c - 32) else c.

(** [s.lower()] *)
Fixpoint lower (s : string) : string :=
  match s with
  | EmptyString => EmptyString
  | String c rest => String (to_lower c) (lower rest)
  end.

(** [s.title()]: a cased character is upper-cased when the character before it
    is not cased and lower-cased otherwise; [prev_cased] is that flag. *)
Fixpoint title_from (prev_cased : bool) (s : string) : string :=
  match s with
  | EmptyString => EmptyString
  | String c rest =>
      if isupper c || islower c
      then String (if prev_cased then to_lower c else to_upper c)
                  (title_from true rest)
      else String c (title_from false rest)
  end.

Definition title (s : string) : string := title_from false s.

(** [str(n)] for a non-negative [int]. *)
Definition of_nat (n : nat) : string := NilZero.string_of_uint (Nat.to_uint n).

(** [sep.join(parts)] *)
Definition join (sep : string) (parts : list string) : string :=
  String.concat sep parts.

(** [a <= b] on [str]: lexicographic on code points. *)
Definition le (a b : string) : Prop := String.leb a b = true.

End PyStr.

(** ** The [json] module: values, [json.dumps] and a reader

    [json.dumps] is given for the values the program serialises ([str], [list]
    and [dict], with the three literals); [loads] reads that fragment of JSON
    text: no numbers, which the program never writes, and no escapes for code
    points from 256 on. *)

Module Json.

#[warnings="-register-all"]
Inductive json : Type :=
| JNull
| JBool (b : bool)
| JStr (s : string)
| JArr (items : list json)
| JObj (members : list (string * json)).

(** The keyword arguments of [json.dumps] the program uses. *)
Record options := { ensure_ascii : bool; indent : option nat }.

(** [json.dumps(obj)] *)
Definition default_options : options :=
  {| ensure_ascii := true; indent := None |}.

Definition LF : ascii := "010"%char.
Definition quote : ascii := "034"%char.
Definition backslash : ascii := "\"%char.

Definition hex_digit (n : nat) : ascii :=
  if (n <? 10)%nat then ascii_of_nat (48 + n) else ascii_of_nat (87 + n).

(** ['\\u{0:04x}'.format(n)] for [n < 256] *)
Definition u_escape (n : nat) : string :=
  String backslash (String "u" (String "0" (String "0"
    (String (hex_digit (n / 16)) (String (hex_digit (n mod 16)) EmptyString))))).

(** [ESCAPE_DCT[c]] where defined, and the [\uXXXX] form that
    [ensure_ascii] asks for outside [' '..'~']. *)
Definition escape_char (ensure : bool) (c : ascii) : string :=
  let n := nat_of_ascii c in
  if Ascii.eqb c quote then String backslash (String quote EmptyString)
  else if Ascii.eqb c backslash then String backslash (String backslash EmptyString)
  else if (n =? 8)%nat then String backslash "b"
  else if (n =? 9)%nat then String backslash "t"
  else if (n =? 10)%nat then String backslash "n"
  else if (n =? 12)%nat then String backslash "f"
  else if (n =? 13)%nat then String backslash "r"
  else if (n <? 32)%nat then u_escape n
  else if ensure && (126 <? n)%nat then u_escape n
  else String c EmptyString.

Fixpoint escape (ensure : bool) (s : string) : string :=
  match s with
  | EmptyString => EmptyString
  | String c rest => escape_char ensure c ++ escape ensure rest
  end.

(** [encode_basestring] / [encode_basestring_ascii] *)
Definition encode_string (o : options) (s : string) : string :=
  String quote (escape (ensure_ascii o) s ++ String quote EmptyString).

Fixpoint spaces (n : nat) : string :=
  match n with
  | O => EmptyString
  | S n => String " " (spaces n)
  end.

(** ['\n' + _indent * _current_indent_level], nothing without [indent] *)
Definition newline_indent (o : options) (level : nat) : string :=
  match indent o with
  | Some n => String LF (spaces (n * level))
  | None => EmptyString
  end.

(** [_item_separator], followed by the new line when [indent] is given *)
Definition separator (o : options) (level : nat) : string :=
  match indent o with
  | Some _ => "," ++ newline_indent o level
  | None => ", "
  end.

Definition key_separator : string := ": ".

(** [_iterencode] at nesting depth [level] *)
Fixpoint encode (o : options) (level : nat) (v : json) : string :=
  match v with
  | JNull => "null"
  | JBool true => "true"
  | JBool false => "false"
  | JStr s => encode_string o s
  | JArr [] => "[]"
  | JArr items =>
      "[" ++ newline_indent o (S level)
          ++ String.concat (separator o (S level)) (map (encode o (S level)) items)
          ++ newline_indent o level ++ "]"
  | JObj [] => "{}"
  | JObj members =>
      "{" ++ newline_indent o (S level)
          ++ String.concat (separator o (S level))
               (map (fun kv => encode_string o (fst kv) ++ key_separator
                                 ++ encode o (S level) (snd kv)) members)
          ++ newline_indent o level ++ "}"
  end.

(** [json.dumps(obj, ensure_ascii=..., indent=...)] *)
Definition dumps (o : options) (v : json) : string := encode o 0 v.

(** *** Reading JSON text *)

Definition is_ws (c : ascii) : bool :=
  let n := nat_of_ascii c in
  ((n =? 32) || (n =? 10) || (n =? 13) || (n =? 9))%nat.

Fixpoint skip_ws (s : string) : string :=
  match s with
  | EmptyString => EmptyString
  | String c rest => if is_ws c then skip_ws rest else s
  end.

Definition hex_value (c : ascii) : option nat :=
  let n := nat_of_ascii c in
  if ((48 <=? n) && (n <=? 57))%nat then Some (n - 48)
  else if ((97 <=? n) && (n <=? 102))%nat then Some (n - 87)
  else if ((65 <=? n) && (n <=? 70))%nat then Some (n - 55)
  else None.

(** The character an escape <<\uXXXX>> stands for, when it is below 256. *)
Definition unicode_escape (h1 h2 h3 h4 : ascii) : option ascii :=
  match hex_value h1, hex_value h2, hex_value h3, hex_value h4 with
  | Some a, Some b, Some c, Some d =>
      let n := 4096 * a + 256 * b + 16 * c + d in
      if (n <? 256)%nat then Some (ascii_of_nat n) else None
  | _, _, _, _ => None
  end.

(** The character a two-character escape stands for. *)
Definition simple_escape (e : ascii) : option ascii :=
  if Ascii.eqb e quote then Some quote
  else if Ascii.eqb e backslash then Some backslash
  else if Ascii.eqb e "/" then Some "/"%char
  else if Ascii.eqb e "b" then Some (ascii_of_nat 8)
  else if Ascii.eqb e "f" then Some (ascii_of_nat 12)
  else if Ascii.eqb e "n" then Some (ascii_of_nat 10)
  else if Ascii.eqb e "r" then Some (ascii_of_nat 13)
  else if Ascii.eqb e "t" then Some (ascii_of_nat 9)
  else None.

Definition cons_char (c : ascii) (r : option (string * string)) : option (string * string) :=
  match r with
  | Some (s, rest) => Some (String c s, rest)
  | None => None
  end.

(** The characters of a string literal after its opening quote, up to and
    including the closing quote. *)
Fixpoint parse_chars (s : string) : option (string * string) :=
  match s with
  | EmptyString => None
  | String c rest =>
      if Ascii.eqb c quote then Some (EmptyString, rest)
      else if Ascii.eqb c backslash then
        match rest with
        | EmptyString => None
        | String e rest1 =>
            if Ascii.eqb e "u" then
              match rest1 with
              | String h1 (String h2 (String h3 (String h4 rest2))) =>
                  match unicode_escape h1 h2 h3 h4 with
                  | Some d => cons_char d (parse_chars rest2)
                  | None => None
                  end
              | _ => None
              end
            else
              match simple_escape e with
              | Some d => cons_char d (parse_chars rest1)
              | None => None
              end
        end
      else if (nat_of_ascii c <? 32)%nat then None
      else cons_char c (parse_chars rest)
  end.

Definition parse_string (s : string) : option (string * string) :=
  match s with
  | String c rest => if Ascii.eqb c quote then parse_chars rest else None
  | EmptyString => None
  end.

(** [s] without the prefix [p], when it has it. *)
Fixpoint strip_prefix (p s : string) : option string :=
  match p, s with
  | EmptyString, _ => Some s
  | String a p', String b s' => if Ascii.eqb a b then strip_prefix p' s' else None
  | String _ _, EmptyString => None
  end.

(** A non-empty, comma-separated sequence of items closed by [close]. *)
Fixpoint parse_items {A : Type} (item : string -> option (A * string))
    (close : ascii) (fuel : nat) (s : string) : option (list A * string) :=
  match fuel with
  | O => None
  | S fuel =>
      match item s with
      | None => None
      | Some (x, rest) =>
          match skip_ws rest with
          | EmptyString => None
          | String c rest1 =>
              if Ascii.eqb c "," then
                match parse_items item close fuel rest1 with
                | Some (xs, rest2) => Some (x :: xs, rest2)
                | None => None
                end
              else if Ascii.eqb c close then Some ([x], rest1)
              else None
          end
      end
  end.

(** One member [ "key" : value ] of an object. *)
Definition parse_member (value : string -> option (json * string)) (s : string)
    : option ((string * json) * string) :=
  match parse_string (skip_ws s) with
  | None => None
  | Some (k, rest) =>
      match skip_ws rest with
      | EmptyString => None
      | String c rest1 =>
          if Ascii.eqb c ":" then
            match value rest1 with
            | Some (v, rest2) => Some ((k, v), rest2)
            | None => None
            end
          else None
      end
  end.

Fixpoint parse_value (fuel : nat) (s : string) : option (json * string) :=
  match fuel with
  | O => None
  | S fuel =>
      match skip_ws s with
      | EmptyString => None
      | String c rest =>
          if Ascii.eqb c quote then
            match parse_chars rest with
            | Some (str, rest1) => Some (JStr str, rest1)
            | None => None
            end
          else if Ascii.eqb c "[" then
            match skip_ws rest with
            | EmptyString => None
            | String c1 rest1 =>
                if Ascii.eqb c1 "]" then Some (JArr [], rest1)
                else
                  match parse_items (parse_value fuel) "]" fuel rest with
                  | Some (items, rest2) => Some (JArr items, rest2)
                  | None => None
                  end
            end
          else if Ascii.eqb c "{" then
            match skip_ws rest with
            | EmptyString => None
            | String c1 rest1 =>
                if Ascii.eqb c1 "}" then Some (JObj [], rest1)
                else
                  match parse_items (parse_member (parse_value fuel)) "}" fuel rest with
                  | Some (members, rest2) => Some (JObj members, rest2)
                  | None => None
                  end
            end
          else
            match strip_prefix "null" (String c rest) with
            | Some rest1 => Some (JNull, rest1)
            | None =>
                match strip_prefix "true" (String c rest) with
                | Some rest1 => Some (JBool true, rest1)
                | None =>
                    match strip_prefix "false" (String c rest) with
                    | Some rest1 => Some (JBool false, rest1)
                    | None => None
                    end
                end
            end
      end
  end.

(** [json.loads(s)] on this fragment: one value, then only white space. *)
Definition loads (s : string) : option json :=
  match parse_value (String.length s) s with
  | Some (v, rest) =>
      match skip_ws rest with
      | EmptyString => Some v
      | String _ _ => None
      end
  | None => None
  end.

(** Number of nodes of a value; enough fuel to read its text back. *)
Fixpoint size (v : json) : nat :=
  match v with
  | JArr items => S (list_sum (map size items))
  | JObj members => S (list_sum (map (fun kv => size (snd kv)) members))
  | _ => 1
  end.

(** Characters that can open a value: not white space, not a closing
    bracket. *)
Definition opens (c : ascii) : bool :=
  negb (is_ws c) && negb (Ascii.eqb c "]") && negb (Ascii.eqb c "}").

(** Strings of white space only. *)
Fixpoint blank (s : string) : bool :=
  match s with
  | EmptyString => true
  | String c rest => is_ws c && blank rest
  end.

End Json.

(** ** Python objects as the reflection helpers see them *)

Module Inspect.

(** A [dict] with [str] keys, in insertion order. *)
Definition dict (V : Type) : Type := list (string * V).

Definition has_key {V} (k : string) (d : dict V) : bool :=
  existsb (fun kv => String.eqb (fst kv) k) d.

(** [d[k] = v] *)
Definition dict_set {V} (k : string) (v : V) (d : dict V) : dict V :=
  if has_key k d
  then map (fun kv => if String.eqb (fst kv) k then (k, v) else kv) d
  else (d ++ [(k, v)])%list.

Definition keys {V} (d : dict V) : list string := map fst d.

(** A type object: its [__name__] when it has one, [str(t)] and [repr(t)]. *)
Record PyType := { ty_name : option string; ty_str : string; ty_repr : string }.

(** The object stored under [__kernel_function__]; [km_description] is
    [getattr(marker, "description", None)]. *)
Record KernelMarker := { km_description : option string }.

(** What the helpers read of a function object: [__doc__], the
    [__kernel_function__] attribute when it is set, [__annotations__], the
    names of [inspect.signature(f).parameters] in order, and
    [typing.get_type_hints(f)] ([None] when that call raises). *)
Record PyFunction := {
  f_doc : option string;
  f_kernel_function : option KernelMarker;
  f_annotations : dict PyType;
  f_parameters : list string;
  f_type_hints : option (gmap string PyType)
}.

(** An attribute value of a class: a plain function (what a [staticmethod]
    gives when read from the class), a bound method (what a [classmethod]
    gives), or anything else. *)
Inductive PyObject :=
| Function (f : PyFunction)
| BoundMethod
| Other.

(** A class: the constant [agent_name] and the attributes [dir] lists with
    their values. *)
Record PyClass := { agent_name : string; namespace : dict PyObject }.

(** [results.sort(key=lambda pair: pair[0])] as a stable insertion sort. *)
Fixpoint insert_pair {A} (x : string * A) (l : list (string * A)) : list (string * A) :=
  match l with
  | [] => [x]
  | y :: rest =>
      if String.leb (fst x) (fst y) then x :: y :: rest
      else y :: insert_pair x rest
  end.

Fixpoint sort_pairs {A} (l : list (string * A)) : list (string * A) :=
  match l with
  | [] => []
  | x :: rest => insert_pair x (sort_pairs rest)
  end.

Definition as_function (kv : string * PyObject) : option (string * PyFunction) :=
  match snd kv with
  | Function f => Some (fst kv, f)
  | _ => None
  end.

(** [inspect.getmembers(cls, predicate=inspect.isfunction)] *)
Definition getmembers_isfunction (cls : PyClass) : list (string * PyFunction) :=
  sort_pairs (omap as_function (namespace cls)).

(** [str(d)] for [d = f.__annotations__]: keys are identifiers, values print
    with [repr]. *)
Definition str_annotations (d : dict PyType) : string :=
  "{" ++ PyStr.join ", " (map (fun kv => "'" ++ fst kv ++ "': " ++ ty_repr (snd kv)) d) ++ "}".

(** Truth value of an optional [str]: [None] and the empty string are false. *)
Definition truthy (s : option string) : bool :=
  match s with
  | Some (String _ _) => true
  | _ => false
  end.

End Inspect.

Import Inspect.

(** ** The class [DocumentTools] *)

(** *** [read_document_contents] *)

Definition html_content : string :=
  String Json.LF
   ("        Here are the extracted tables in HTML format: 1. **Sales Numbers for Q1:** <table border='1' style='border-collapse:collapse;width:50%;'> <thead> <tr> <th>Quarter</th> <th>Bicycle Sales</th> <th>Helmet Sales</th> <th>Total Sales</th> </tr> </thead> <tbody> <tr> <td>Q1</td> <td>$150,000</td> <td>$75,000</td> <td>$225,000</td> </tr> <tr> <td>Q2</td> <td>$180,000</td> <td>$90,000</td> <td>$270,000</td> </tr> <tr> <td>Q3</td> <td>$210,000</td> <td>$105,000</td> <td>$315,000</td> </tr> <tr> <td>Q4</td> <td>$240,000</td> <td>$120,000</td> <td>$360,000</td> </tr> </tbody></table>2. **Projected Sales Numbers:**<table border='1' style='border-collapse:collapse;width:50%;'> <thead> <tr> <th>Quarter</th> <th>Projected Bicycle Sales</th> <th>Projected Helmet Sales</th> <th>Projected Total Sales</th> </tr> </thead> <tbody> <tr> <td>Q1</td> <td>$270,000</td> <td>$135,000</td> <td>$405,000</td> </tr> <tr> <td>Q2</td> <td>$300,000</td> <td>$150,000</td> <td>$450,000</td> </tr> <tr> <td>Q3</td> <td>$330,000</td> <td>$165,000</td> <td>$495,000</td> </tr> <tr> <td>Q4</td> <td>$360,000</td> <td>$180,000</td> <td>$540,000</td> </tr> </tbody></table>"
    ++ String Json.quote (String Json.LF "        ")).

(** The value the coroutine [read_document_contents(document)] returns. *)
Definition read_document_contents (document : list Byte.byte) : string :=
  html_content.

(** *** [save_to_excel]

    The function only calls BeautifulSoup, pandas and the file system. The
    libraries are an interface here: what each call returns or raises is a
    parameter, the order of the calls and what is passed on is the function's. *)

Class Libraries := {
  LibError : Type;
  Soup : Type;
  Tag : Type;
  DataFrame : Type;
  (** readings of the clock *)
  Time : Type;
  (** [BeautifulSoup(markup, features)] *)
  BeautifulSoup : string -> string -> LibError + Soup;
  (** [soup.find_all(name)], in document order *)
  find_all : Soup -> string -> list Tag;
  (** [str(tag)] *)
  tag_str : Tag -> string;
  (** [pd.read_html(StringIO(text))] *)
  read_html : string -> LibError + list DataFrame;
  (** what [pd.ExcelWriter(path, engine=...)] raises, if it does, before it
      opens the file *)
  ExcelWriter_error : string -> string -> option LibError;
  (** what [df.to_excel(writer, sheet_name=..., index=False)] raises, if it
      does, given the sheets already in the writer *)
  to_excel_error : DataFrame -> list (string * DataFrame) -> string -> option LibError;
  (** the bytes of the workbook [writer.close()] saves, or what it raises;
      the workbook records the time at which it is made *)
  workbook_bytes : list (string * DataFrame) -> Time -> LibError + list Byte.byte
}.

(** The files of the working directory: path to content. They are regular
    files that can be written: opening one of them for writing, or a path
    where there is none, does not fail. *)
Abbreviation FS := (gmap string (list Byte.byte)).

Section SaveToExcel.
Context {L : Libraries}.

(** What a call can raise: an error of a library, or one of the two built-in
    errors of the operations the body does itself (a subscript, [open]). *)
Inductive Exc :=
| Raised (e : LibError)
| IndexError
| FileNotFoundError.

(** A computation that reads the clock, reads and writes files and may
    raise. The clock stands still while a call runs. *)
Definition M (A : Type) : Type := Time -> FS -> (Exc + A) * FS.

Definition ret {A} (x : A) : M A := fun now fs => (inr x, fs).
Definition raise {A} (e : Exc) : M A := fun now fs => (inl e, fs).
Definition bind {A B} (m : M A) (k : A -> M B) : M B :=
  fun now fs =>
    match m now fs with
    | (inr x, fs1) => k x now fs1
    | (inl e, fs1) => (inl e, fs1)
    end.

Notation "x <- m ;; k" := (bind m (fun x => k))
  (at level 100, m at next level, right associativity).

(** A library call: its error, if any, is raised as it is. *)
Definition call {A} (r : LibError + A) : M A :=
  match r with
  | inl e => raise (Raised e)
  | inr x => ret x
  end.

Definition check (r : option LibError) : M unit :=
  match r with
  | Some e => raise (Raised e)
  | None => ret tt
  end.

(** The [pd.ExcelWriter] object: target path, engine and the sheets written
    so far. *)
Record Writer := { w_path : string; w_engine : string; w_sheets : list (string * DataFrame) }.

(** Writing a file. *)
Definition write_file (path : string) (bytes : list Byte.byte) : M unit :=
  fun now fs => (inr tt, <[path := bytes]> fs).

(** [pd.ExcelWriter(path, engine=engine)]: the file is opened for writing
    when the writer is made, so it is there and empty from then on. *)
Definition ExcelWriter (path engine : string) : M Writer :=
  _ <- check (ExcelWriter_error path engine) ;;
  _ <- write_file path [] ;;
  ret {| w_path := path; w_engine := engine; w_sheets := [] |}.

(** [df.to_excel(w, sheet_name=sheet_name, index=False)]: the writer with one
    more sheet. *)
Definition to_excel (df : DataFrame) (w : Writer) (sheet_name : string) : M Writer :=
  _ <- check (to_excel_error df (w_sheets w) sheet_name) ;;
  ret {| w_path := w_path w; w_engine := w_engine w;
         w_sheets := (w_sheets w ++ [(sheet_name, df)])%list |}.

(** The time now. *)
Definition clock : M Time := fun now fs => (inr now, fs).

(** [writer.close()]: the workbook is saved under the writer's path. *)
Definition close (w : Writer) : M unit :=
  now <- clock ;;
  bytes <- call (workbook_bytes (w_sheets w) now) ;;
  write_file (w_path w) bytes.

(** [with open(path, 'rb') as f: f.read()] *)
Definition read_file (path : string) : M (list Byte.byte) :=
  fun now fs =>
    match fs !! path with
    | Some bytes => (inr bytes, fs)
    | None => (inl FileNotFoundError, fs)
    end.

(** [l[0]] *)
Definition first_item {A} (l : list A) : M A :=
  match l with
  | x :: _ => ret x
  | [] => raise IndexError
  end.

(** [f'Table_{i+1}'] *)
Definition sheet_name_of (i : nat) : string := "Table_" ++ PyStr.of_nat (i + 1).

(** [for i, table in enumerate(tables): ...], from index [i] on *)
Fixpoint write_tables (i : nat) (tables : list Tag) (excel_writer : Writer) : M Writer :=
  match tables with
  | [] => ret excel_writer
  | table :: rest =>
      dfs <- call (read_html (tag_str table)) ;;
      df <- first_item dfs ;;
      excel_writer <- to_excel df excel_writer (sheet_name_of i) ;;
      write_tables (S i) rest excel_writer
  end.

Definition save_to_excel (html_content : string) : M (list Byte.byte) :=
  soup <- call (BeautifulSoup html_content "html.parser") ;;
  let tables := find_all soup "table" in
  excel_writer <- ExcelWriter "output.xlsx" "xlsxwriter" ;;
  excel_writer <- write_tables 0 tables excel_writer ;;
  _ <- close excel_writer ;;
  excel_bytes <- read_file "output.xlsx" ;;
  ret excel_bytes.

End SaveToExcel.

Arguments Exc {L}.
Arguments Writer {L}.

(** *** [get_all_kernel_functions] *)

(** The body of the [for] loop over the members, with the dictionary built so
    far. *)
Fixpoint collect_kernel_functions (members : list (string * PyFunction))
    (kernel_functions : dict PyFunction) : dict PyFunction :=
  match members with
  | [] => kernel_functions
  | (name, method) :: rest =>
      if PyStr.startswith name "_" || String.eqb name "get_all_kernel_functions"
      then collect_kernel_functions rest kernel_functions
      else
        let method_attrs := f_annotations method in
        if bool_decide (is_Some (f_kernel_function method))
           || PyStr.contains "kernel_function" (str_annotations method_attrs)
        then collect_kernel_functions rest (dict_set name method kernel_functions)
        else collect_kernel_functions rest kernel_functions
  end.

Definition get_all_kernel_functions (cls : PyClass) : dict PyFunction :=
  collect_kernel_functions (getmembers_isfunction cls) [].

(** *** [generate_tools_json_doc] *)

(** The description of a method: its stripped docstring, replaced by the
    description of the [__kernel_function__] object when that is set. *)
Definition method_description (method : PyFunction) : string :=
  let description := EmptyString in
  let description :=
    match f_doc method with
    | Some doc => if truthy (Some doc) then PyStr.strip doc else description
    | None => description
    end in
  match f_kernel_function method with
  | Some marker =>
      match km_description marker with
      | Some d => if truthy (Some d) then d else description
      | None => description
      end
  | None => description
  end.

(** The type name recorded for a parameter. *)
Definition param_type_of (type_hints : gmap string PyType) (param_name : string) : string :=
  match type_hints !! param_name with
  | None => "string"
  | Some type_obj =>
      match ty_name type_obj with
      | Some name => PyStr.lower name
      | None =>
          let param_type := PyStr.lower (ty_str type_obj) in
          if PyStr.contains "int" param_type then "int"
          else if PyStr.contains "float" param_type then "float"
          else if PyStr.contains "bool" param_type then "boolean"
          else "string"
      end
  end.

(** The loop over [sig.parameters.items()]. *)
Fixpoint collect_args (type_hints : gmap string PyType) (parameters : list string)
    (args_dict : dict (dict string)) : dict (dict string) :=
  match parameters with
  | [] => args_dict
  | param_name :: rest =>
      if String.eqb param_name "cls" || String.eqb param_name "self"
      then collect_args type_hints rest args_dict
      else
        collect_args type_hints rest
          (dict_set param_name
             [("description", param_name);
              ("title", PyStr.title (PyStr.replace "_" " " param_name));
              ("type", param_type_of type_hints param_name)]
             args_dict)
  end.

Definition json_of_strings (d : dict string) : Json.json :=
  Json.JObj (map (fun kv => (fst kv, Json.JStr (snd kv))) d).

Definition json_of_args (args_dict : dict (dict string)) : Json.json :=
  Json.JObj (map (fun kv => (fst kv, json_of_strings (snd kv))) args_dict).

(** [json.dumps(args_dict)] with every double quote replaced by a single
    quote. *)
Definition arguments_string (args_dict : dict (dict string)) : string :=
  PyStr.replace Json.quote "'" (Json.dumps Json.default_options (json_of_args args_dict)).

(** The [tool_entry] of one annotated method; [None] when [get_type_hints]
    raises. *)
Definition tool_entry (cls : PyClass) (name : string) (method : PyFunction)
    : option (dict string) :=
  let description := method_description method in
  match f_type_hints method with
  | None => None
  | Some type_hints =>
      let args_dict := collect_args type_hints (f_parameters method) [] in
      Some [("agent", agent_name cls);
            ("function", name);
            ("description", description);
            ("arguments", arguments_string args_dict)]
  end.

(** The [for] loop over the members, with the list built so far. *)
Fixpoint collect_tools (cls : PyClass) (members : list (string * PyFunction))
    (tools_list : list (dict string)) : option (list (dict string)) :=
  match members with
  | [] => Some tools_list
  | (name, method) :: rest =>
      if PyStr.startswith name "_" || String.eqb name "generate_tools_json_doc"
      then collect_tools cls rest tools_list
      else if bool_decide (is_Some (f_kernel_function method))
      then
        match tool_entry cls name method with
        | Some entry => collect_tools cls rest (tools_list ++ [entry])%list
        | None => None
        end
      else collect_tools cls rest tools_list
  end.

(** The list [tools_list] at the [return]. *)
Definition tools_list_of (cls : PyClass) : option (list (dict string)) :=
  collect_tools cls (getmembers_isfunction cls) [].

Definition manifest_options : Json.options :=
  {| Json.ensure_ascii := false; Json.indent := Some 2 |}.

Definition json_of_tools (tools_list : list (dict string)) : Json.json :=
  Json.JArr (map json_of_strings tools_list).

(** [json.dumps(tools_list, ensure_ascii=False, indent=2)]; [None] when the
    call raises. *)
Definition generate_tools_json_doc (cls : PyClass) : option string :=
  match tools_list_of cls with
  | Some tools_list => Some (Json.dumps manifest_options (json_of_tools tools_list))
  | None => None
  end.

(** *** The class itself

    [AgentType] (module [models.messages_kernel]) and the decorator
    [kernel_function] (package [semantic_kernel]) are imported: the value
    [AgentType.HR.value] and the object the decorator stores under
    [__kernel_function__] for a given description are parameters
    ([semantic_kernel]'s own decorator is [stores_True] below).

    The class body is read as the statements it is made of: the assignment to
    [formatting_instructions] (the line ends in a stray continuation mark),
    the assignment to [agent_name], and the four methods; the docstring of
    [save_to_excel] is the string literal that opens its body. *)

Section TheClass.
Variable AgentType_HR_value : string.
Variable kernel_marker : string -> KernelMarker.

(** [@kernel_function(description=...)]: sets [__kernel_function__]. *)
Definition kernel_function (description : string) (f : PyFunction) : PyFunction :=
  {| f_doc := f_doc f;
     f_kernel_function := Some (kernel_marker description);
     f_annotations := f_annotations f;
     f_parameters := f_parameters f;
     f_type_hints := f_type_hints f |}.

Definition class_of (name : string) : PyType :=
  {| ty_name := Some name;
     ty_str := "<class '" ++ name ++ "'>";
     ty_repr := "<class '" ++ name ++ "'>" |}.

Definition read_document_contents_function : PyFunction :=
  kernel_function
    "Read contents of the data provided, extract tables and return them on HTML format."
    {| f_doc := None;
       f_kernel_function := None;
       f_annotations := [("document", class_of "bytes"); ("return", class_of "str")];
       f_parameters := ["document"];
       f_type_hints :=
         Some (<["document" := class_of "bytes"]> (<["return" := class_of "str"]> ∅)) |}.

Definition save_to_excel_doc : string :=
  PyStr.join (String Json.LF EmptyString)
    [EmptyString;
     "        Converts HTML tables in the provided HTML content to an Excel file.";
     "        ";
     "        Args:";
     "            html_content (str): The HTML content containing tables.";
     "        ";
     "        Returns:";
     "            bytes: The function saves the Excel file as 'output.xlsx'.";
     "    "].

Definition save_to_excel_function : PyFunction :=
  kernel_function
    "Save the extracted HTML tables to an Excel file."
    {| f_doc := Some save_to_excel_doc;
       f_kernel_function := None;
       f_annotations := [("html_content", class_of "str"); ("return", class_of "bytes")];
       f_parameters := ["html_content"];
       f_type_hints :=
         Some (<["html_content" := class_of "str"]> (<["return" := class_of "bytes"]> ∅)) |}.

Definition formatting_instructions : string :=
  "Instructions: You help read documents, extract information, and save extracted table inforamtion to an excel file. ".

(** The attributes of [DocumentTools]: those the class body binds, in the
    order of the source, then attributes every class has. *)
Definition DocumentTools : PyClass :=
  {| agent_name := AgentType_HR_value;
     namespace :=
       [("formatting_instructions", Other);
        ("agent_name", Other);
        ("read_document_contents", Function read_document_contents_function);
        ("save_to_excel", Function save_to_excel_function);
        ("get_all_kernel_functions", BoundMethod);
        ("generate_tools_json_doc", BoundMethod);
        ("__class__", Other); ("__dict__", Other); ("__doc__", Other);
        ("__init__", Other); ("__module__", Other); ("__weakref__", Other)] |}.

End TheClass.

(** What the decorator of [semantic_kernel] stores under
    [__kernel_function__]: the value [True], whatever the description (which
    it keeps under another attribute, one the helpers never read). [True] has
    no attribute [description]. *)
Definition stores_True (description : string) : KernelMarker :=
  {| km_description := None |}.

(** ** Vocabulary of the statements *)

(** [d.get(k)] *)
Fixpoint dict_get {V} (k : string) (d : dict V) : option V :=
  match d with
  | [] => None
  | (k', v) :: rest => if String.eqb k' k then Some v else dict_get k rest
  end.

(** The methods [generate_tools_json_doc] is meant to list: public, not the
    generator itself, carrying [__kernel_function__]. *)
Definition is_tool (member : string * PyFunction) : bool :=
  negb (PyStr.startswith (fst member) "_")
  && negb (String.eqb (fst member) "generate_tools_json_doc")
  && bool_decide (is_Some (f_kernel_function (snd member))).

(** The same for [get_all_kernel_functions]. *)
Definition is_kernel_function (member : string * PyFunction) : bool :=
  negb (PyStr.startswith (fst member) "_")
  && negb (String.eqb (fst member) "get_all_kernel_functions")
  && bool_decide (is_Some (f_kernel_function (snd member))).

(** What [get_all_kernel_functions] selects: also functions whose printed
    annotations mention [kernel_function]. *)
Definition is_selected (member : string * PyFunction) : bool :=
  negb (PyStr.startswith (fst member) "_")
  && negb (String.eqb (fst member) "get_all_kernel_functions")
  && (bool_decide (is_Some (f_kernel_function (snd member)))
      || PyStr.contains "kernel_function" (str_annotations (f_annotations (snd member)))).

Definition is_argument (param_name : string) : bool :=
  negb (String.eqb param_name "cls") && negb (String.eqb param_name "self").

(** Members in ascending order of name. *)
Definition by_name {A} (a b : string * A) : Prop := PyStr.le (fst a) (fst b).

(** *** The operations of [save_to_excel] and their outcomes *)

Section Operations.
Context {L : Libraries}.

(** The writer [w] holding [sheets]. *)
Definition with_sheets (w : Writer) (sheets : list (string * DataFrame)) : Writer :=
  {| w_path := w_path w; w_engine := w_engine w; w_sheets := sheets |}.

(** The sheets written for the frames [dfs], the first of them at index [i]. *)
Fixpoint sheets_from (i : nat) (dfs : list DataFrame) : list (string * DataFrame) :=
  match dfs with
  | [] => []
  | df :: rest => (sheet_name_of i, df) :: sheets_from (S i) rest
  end.

(** [to_excel] accepts each of the frames [dfs] in turn, after [sheets]. *)
Fixpoint to_excel_accepts (i : nat) (dfs : list DataFrame)
    (sheets : list (string * DataFrame)) : Prop :=
  match dfs with
  | [] => True
  | df :: rest =>
      to_excel_error df sheets (sheet_name_of i) = None
      /\ to_excel_accepts (S i) rest (sheets ++ [(sheet_name_of i, df)])%list
  end.

(** [loop_raises i tables sheets e]: in the loop over [tables], entered at
    index [i] with [sheets] already written, an operation raises [e] (reading
    a table, taking the first frame, or writing the sheet) after all the
    operations before it have returned. *)
Inductive loop_raises :
    nat -> list Tag -> list (string * DataFrame) -> Exc -> Prop :=
| read_html_raises i table rest sheets e :
    read_html (tag_str table) = inl e ->
    loop_raises i (table :: rest) sheets (Raised e)
| subscript_raises i table rest sheets :
    read_html (tag_str table) = inr [] ->
    loop_raises i (table :: rest) sheets IndexError
| to_excel_raises i table rest sheets df more e :
    read_html (tag_str table) = inr (df :: more) ->
    to_excel_error df sheets (sheet_name_of i) = Some e ->
    loop_raises i (table :: rest) sheets (Raised e)
| later_raises i table rest sheets df more e :
    read_html (tag_str table) = inr (df :: more) ->
    to_excel_error df sheets (sheet_name_of i) = None ->
    loop_raises (S i) rest (sheets ++ [(sheet_name_of i, df)])%list e ->
    loop_raises i (table :: rest) sheets e.

(** [loop_returns i tables sheets sheets']: every operation of the loop
    returns, and the writer ends with [sheets']. *)
Inductive loop_returns :
    nat -> list Tag -> list (string * DataFrame) -> list (string * DataFrame) -> Prop :=
| loop_done i sheets : loop_returns i [] sheets sheets
| loop_next i table rest sheets df more sheets' :
    read_html (tag_str table) = inr (df :: more) ->
    to_excel_error df sheets (sheet_name_of i) = None ->
    loop_returns (S i) rest (sheets ++ [(sheet_name_of i, df)])%list sheets' ->
    loop_returns i (table :: rest) sheets sheets'.

(** [operation_raises html now e]: on the input [html], at the time [now],
    one of the operations the body performs raises [e], all the operations
    before it having returned. *)
Inductive operation_raises (html : string) (now : Time) : Exc -> Prop :=
| BeautifulSoup_raises e :
    BeautifulSoup html "html.parser" = inl e ->
    operation_raises html now (Raised e)
| ExcelWriter_raises soup e :
    BeautifulSoup html "html.parser" = inr soup ->
    ExcelWriter_error "output.xlsx" "xlsxwriter" = Some e ->
    operation_raises html now (Raised e)
| loop_operation_raises soup e :
    BeautifulSoup html "html.parser" = inr soup ->
    ExcelWriter_error "output.xlsx" "xlsxwriter" = None ->
    loop_raises 0 (find_all soup "table") [] e ->
    operation_raises html now e
| close_raises soup sheets e :
    BeautifulSoup html "html.parser" = inr soup ->
    ExcelWriter_error "output.xlsx" "xlsxwriter" = None ->
    loop_returns 0 (find_all soup "table") [] sheets ->
    workbook_bytes sheets now = inl e ->
    operation_raises html now (Raised e).

(** [loop_library_raises i tables sheets e]: in the loop, a call into a
    library raises [e] (reading a table or writing the sheet) after all the
    operations before it have returned. The subscript the body applies to
    what [pd.read_html] returns is not a call into a library. *)
Inductive loop_library_raises :
    nat -> list Tag -> list (string * DataFrame) -> LibError -> Prop :=
| library_read_html_raises i table rest sheets e :
    read_html (tag_str table) = inl e ->
    loop_library_raises i (table :: rest) sheets e
| library_to_excel_raises i table rest sheets df more e :
    read_html (tag_str table) = inr (df :: more) ->
    to_excel_error df sheets (sheet_name_of i) = Some e ->
    loop_library_raises i (table :: rest) sheets e
| library_later_raises i table rest sheets df more e :
    read_html (tag_str table) = inr (df :: more) ->
    to_excel_error df sheets (sheet_name_of i) = None ->
    loop_library_raises (S i) rest (sheets ++ [(sheet_name_of i, df)])%list e ->
    loop_library_raises i (table :: rest) sheets e.

(** [loop_no_frame i tables sheets]: the loop reaches a table for which
    [pd.read_html] returns an empty list. *)
Inductive loop_no_frame :
    nat -> list Tag -> list (string * DataFrame) -> Prop :=
| no_frame_here i table rest sheets :
    read_html (tag_str table) = inr [] ->
    loop_no_frame i (table :: rest) sheets
| no_frame_later i table rest sheets df more :
    read_html (tag_str table) = inr (df :: more) ->
    to_excel_error df sheets (sheet_name_of i) = None ->
    loop_no_frame (S i) rest (sheets ++ [(sheet_name_of i, df)])%list ->
    loop_no_frame i (table :: rest) sheets.

(** [library_raises html now e]: on the input [html], at the time [now], a
    call into a library raises [e], all the operations before it having
    returned. *)
Inductive library_raises (html : string) (now : Time) : LibError -> Prop :=
| library_BeautifulSoup_raises e :
    BeautifulSoup html "html.parser" = inl e ->
    library_raises html now e
| library_ExcelWriter_raises soup e :
    BeautifulSoup html "html.parser" = inr soup ->
    ExcelWriter_error "output.xlsx" "xlsxwriter" = Some e ->
    library_raises html now e
| library_loop_raises soup e :
    BeautifulSoup html "html.parser" = inr soup ->
    ExcelWriter_error "output.xlsx" "xlsxwriter" = None ->
    loop_library_raises 0 (find_all soup "table") [] e ->
    library_raises html now e
| library_close_raises soup sheets e :
    BeautifulSoup html "html.parser" = inr soup ->
    ExcelWriter_error "output.xlsx" "xlsxwriter" = None ->
    loop_returns 0 (find_all soup "table") [] sheets ->
    workbook_bytes sheets now = inl e ->
    library_raises html now e.

(** [table_without_frame html]: the markup is parsed, the writer is made, and
    the loop reaches a table for which [pd.read_html] returns an empty list. *)
Definition table_without_frame (html : string) : Prop :=
  exists soup,
    BeautifulSoup html "html.parser" = inr soup
    /\ ExcelWriter_error "output.xlsx" "xlsxwriter" = None
    /\ loop_no_frame 0 (find_all soup "table") [].

End Operations.

(** *** A small stand-in for the libraries, to run [save_to_excel]

    Markup is a list of table elements separated by white space. A table
    without rows cannot be read ([read_html] raises, as pandas does when it
    finds no table); any other table reads as one frame. A workbook is saved
    as the text of its sheets, followed by the time. *)
Definition table_a : string := "<table><tr><td>a</td></tr></table>".
Definition table_b : string := "<table><tr><td>b</td></tr></table>".
Definition empty_table : string := "<table></table>".
Definition two_tables : string := table_a ++ " " ++ table_b.

Definition toy_read_html (text : string) : string + list string :=
  if String.eqb text empty_table then inl "No tables found" else inr [text].

Definition toy_workbook (sheets : list (string * string)) (now : nat) : list Byte.byte :=
  list_byte_of_string
    (PyStr.join ";" (map (fun sheet => fst sheet ++ "=" ++ snd sheet) sheets)
     ++ "@" ++ PyStr.of_nat now).

Definition toy_libraries : Libraries :=
  {| LibError := string;
     Soup := list string;
     Tag := string;
     DataFrame := string;
     Time := nat;
     BeautifulSoup := fun markup _ => inr (String.words markup);
     find_all := fun soup _ => soup;
     tag_str := fun tag => tag;
     read_html := toy_read_html;
     ExcelWriter_error := fun _ _ => None;
     to_excel_error := fun _ _ _ => None;
     workbook_bytes := fun sheets now => inr (toy_workbook sheets now) |}.

(** The same libraries, except that a table with a caption only reads as an
    empty list of frames: this exercises the subscript. *)
Definition caption_table : string := "<table><caption>c</caption></table>".

Definition lax_libraries : Libraries :=
  {| LibError := string;
     Soup := list string;
     Tag := string;
     DataFrame := string;
     Time := nat;
     BeautifulSoup := fun markup _ => inr (String.words markup);
     find_all := fun soup _ => soup;
     tag_str := fun tag => tag;
     read_html := fun text =>
       if String.eqb text caption_table then inr [] else toy_read_html text;
     ExcelWriter_error := fun _ _ => None;
     to_excel_error := fun _ _ _ => None;
     workbook_bytes := fun sheets now => inr (toy_workbook sheets now) |}.

(** *** A subclass with one more static method, not decorated:
    [def helper(kernel_function: int) -> str] *)
Definition helper_function : PyFunction :=
  {| f_doc := None;
     f_kernel_function := None;
     f_annotations := [("kernel_function", class_of "int"); ("return", class_of "str")];
     f_parameters := ["kernel_function"];
     f_type_hints :=
       Some (<["kernel_function" := class_of "int"]> (<["return" := class_of "str"]> ∅)) |}.

Definition SubclassWithHelper (hr : string) (marker : string -> KernelMarker) : PyClass :=
  {| agent_name := hr;
     namespace := ("helper", Function helper_function) :: namespace (DocumentTools hr marker) |}.

(** In the examples JSON text is written with ['] for the double quote. *)
Definition dq (s : string) : string := PyStr.replace "'" Json.quote s.

(** The field [k] of a JSON object. *)
Definition json_field (k : string) (v : Json.json) : option Json.json :=
  match v with
  | Json.JObj members => dict_get k members
  | _ => None
  end.

(** [c in s] for a character. *)
Fixpoint has_char (c : ascii) (s : string) : bool :=
  match s with
  | EmptyString => false
  | String d rest => Ascii.eqb d c || has_char c rest
  end.

(** The strings a JSON value holds, keys and values. *)
Fixpoint strings_of (v : Json.json) : list string :=
  match v with
  | Json.JStr s => [s]
  | Json.JArr items => flat_map strings_of items
  | Json.JObj members => flat_map (fun kv => fst kv :: strings_of (snd kv)) members
  | _ => []
  end.

(** The JSON object recorded for one argument. *)
Definition argument_json (description title type : string) : Json.json :=
  Json.JObj [("description", Json.JStr description);
             ("title", Json.JStr title);
             ("type", Json.JStr type)].

(** The JSON mapping of the arguments [args]: each is a name with its title
    and type, and is recorded under its name, with the name as description. *)
Definition arguments_json (args : list (string * (string * string))) : Json.json :=
  Json.JObj (map (fun a => (fst a, argument_json (fst a) (fst (snd a)) (snd (snd a)))) args).

(** [arguments_text text args]: [text] is what [json.dumps] writes for the
    mapping of [args], with a single quote in place of every double quote;
    and when no name, title or type holds a single quote, putting the double
    quotes back and reading the text as JSON gives that mapping. *)
Definition arguments_text (text : string) (args : list (string * (string * string))) : Prop :=
  text = PyStr.replace Json.quote "'" (Json.dumps Json.default_options (arguments_json args))
  /\ (Forall (fun a => has_char "'" (fst a) = false
                       /\ has_char "'" (fst (snd a)) = false
                       /\ has_char "'" (snd (snd a)) = false) args ->
      Json.loads (dq text) = Some (arguments_json args)).

(** An entry describes a member: it carries the member's name, and its
    arguments text is that of the mapping of the member's parameters other
    than [cls] and [self], in their order. *)
Definition describes (member : string * PyFunction) (entry : dict string) : Prop :=
  dict_get "function" entry = Some (fst member)
  /\ exists (arguments : string) (args : list (string * (string * string))),
       dict_get "arguments" entry = Some arguments
       /\ arguments_text arguments args
       /\ map fst args = List.filter is_argument (f_parameters (snd member)).

(** Every value of the arguments mapping has the three fields, with the
    parameter name as description. *)
Definition argument_record (kv : string * dict string) : Prop :=
  exists title type,
    snd kv = [("description", fst kv); ("title", title); ("type", type)].

(** The class with [AgentType.HR.value] taken to be [Hr_Agent], decorated
    by [semantic_kernel]'s decorator. *)
Definition HrDocumentTools : PyClass :=
  DocumentTools "Hr_Agent" stores_True.

(** What a decorator that stored an object keeping the description would
    give: the case the generator provides for. *)
Definition keeps_description (description : string) : KernelMarker :=
  {| km_description := Some description |}.

(** A decorated method that takes [self] only: [def reset(self)]. *)
Definition reset_function : PyFunction :=
  {| f_doc := None;
     f_kernel_function := Some {| km_description := None |};
     f_annotations := [];
     f_parameters := ["self"];
     f_type_hints := Some ∅ |}.

(** A class without tools: an undecorated function and a class method. *)
Definition PlainClass : PyClass :=
  {| agent_name := "Hr_Agent";
     namespace := [("helper", Function helper_function);
                   ("get_all_kernel_functions", BoundMethod)] |}.

(** A class with a tool whose annotations cannot be resolved:
    [get_type_hints] raises for it. *)
Definition unresolved_function : PyFunction :=
  {| f_doc := None;
     f_kernel_function := Some {| km_description := None |};
     f_annotations := [("x", {| ty_name := None; ty_str := "'Missing'"; ty_repr := "'Missing'" |})];
     f_parameters := ["x"];
     f_type_hints := None |}.

Definition UnresolvedClass : PyClass :=
  {| agent_name := "Hr_Agent";
     namespace := [("lookup", Function unresolved_function)] |}.

(** * Properties *)

#[local] Arguments String.append : simpl nomatch.

(** ** The model at work *)

Example title_html_content : PyStr.title (PyStr.replace "_" " " "html_content") = "Html Content".
Proof. reflexivity. Qed.

Example strip_ex : PyStr.strip ("  a b " ++ String (ascii_of_nat 10) " ") = "a b".
Proof. reflexivity. Qed.

Example of_nat_ex : PyStr.of_nat 0 = "0" /\ PyStr.of_nat 12 = "12".
Proof. split; reflexivity. Qed.

Example dumps_ex :
  Json.dumps {| Json.ensure_ascii := false; Json.indent := Some 2 |}
    (Json.JArr [Json.JObj [("a", Json.JStr "x"); ("b", Json.JArr [])]; Json.JNull])
  = String.concat (String Json.LF EmptyString)
      ["["; "  {"; dq "    'a': 'x',"; dq "    'b': []"; "  },"; "  null"; "]"].
Proof. reflexivity. Qed.

Example dumps_default_ex :
  Json.dumps Json.default_options
    (Json.JObj [("a", Json.JObj [("t", Json.JStr (String (ascii_of_nat 233) "\"))]);
                ("b", Json.JBool true)])
  = dq "{'a': {'t': '\u00e9\\'}, 'b': true}".
Proof. reflexivity. Qed.

Example loads_ex :
  Json.loads (dq "[ {'a': 'x\nA', 'b': []} , null ]")
  = Some (Json.JArr [Json.JObj [("a", Json.JStr (String "x" (String Json.LF "A")));
                                ("b", Json.JArr [])]; Json.JNull]).
Proof. reflexivity. Qed.

Example sort_pairs_ex :
  sort_pairs [("save_to_excel", 1); ("_private", 2); ("read_document_contents", 3); ("Zeta", 4)]
  = [("Zeta", 4); ("_private", 2); ("read_document_contents", 3); ("save_to_excel", 1)].
Proof. reflexivity. Qed.

Example getmembers_ex :
  map fst (getmembers_isfunction HrDocumentTools)
  = ["read_document_contents"; "save_to_excel"].
Proof. reflexivity. Qed.

Example str_annotations_ex :
  str_annotations (f_annotations helper_function)
  = "{'kernel_function': <class 'int'>, 'return': <class 'str'>}".
Proof. reflexivity. Qed.

Example manifest_ex :
  generate_tools_json_doc HrDocumentTools
  = Some (PyStr.join (String Json.LF EmptyString)
      ["[";
       "  {";
       dq "    'agent': 'Hr_Agent',";
       dq "    'function': 'read_document_contents',";
       dq "    'description': '',";
       dq "    'arguments': " ++ String Json.quote
          ("{'document': {'description': 'document', 'title': 'Document', 'type': 'bytes'}}"
           ++ String Json.quote EmptyString);
       "  },";
       "  {";
       dq "    'agent': 'Hr_Agent',";
       dq "    'function': 'save_to_excel',";
       dq "    'description': '"
          ++ "Converts HTML tables in the provided HTML content to an Excel file.\n        \n        Args:\n            html_content (str): The HTML content containing tables.\n        \n        Returns:\n            bytes: The function saves the Excel file as 'output.xlsx'."
          ++ dq "',";
       dq "    'arguments': " ++ String Json.quote
          ("{'html_content': {'description': 'html_content', 'title': 'Html Content', 'type': 'str'}}"
           ++ String Json.quote EmptyString);
       "  }";
       "]"]).
Proof. reflexivity. Qed.

Example save_to_excel_ex :
  fst (save_to_excel (L := toy_libraries) two_tables 7 ∅)
  = inr (list_byte_of_string
           ("Table_1=" ++ table_a ++ ";Table_2=" ++ table_b ++ "@7"))
  /\ fst (save_to_excel (L := toy_libraries) (table_a ++ " " ++ empty_table) 7 ∅)
     = inl (@Raised toy_libraries "No tables found")
  /\ fst (save_to_excel (L := lax_libraries) (table_a ++ " " ++ caption_table) 7 ∅)
     = inl IndexError.
Proof. repeat split; reflexivity. Qed.

(** ** Strings *)

Lemma app_assoc_s (a b c : string) : (a ++ b) ++ c = a ++ (b ++ c).
Proof. induction a as [|x a IH]; simpl; [reflexivity | now rewrite IH]. Qed.

Lemma app_empty_r (a : string) : a ++ EmptyString = a.
Proof. induction a as [|x a IH]; simpl; [reflexivity | now rewrite IH]. Qed.

Lemma length_app_s (a b : string) :
  String.length (a ++ b) = String.length a + String.length b.
Proof. induction a as [|x a IH]; simpl; [reflexivity | now rewrite IH]. Qed.

(** ** Reading back what [json.dumps] writes *)

Section JsonRoundTrip.
Import Json.

Lemma parse_chars_escape_char (ens : bool) (c : ascii) (r : string) :
  parse_chars (escape_char ens c ++ r) = cons_char c (parse_chars r).
Proof.
  destruct c as [b0 b1 b2 b3 b4 b5 b6 b7].
  destruct ens, b0, b1, b2, b3, b4, b5, b6, b7; reflexivity.
Qed.

Lemma parse_chars_escape (ens : bool) (s rest : string) :
  parse_chars (escape ens s ++ String quote rest) = Some (s, rest).
Proof.
  induction s as [|c s IH]; simpl.
  - reflexivity.
  - rewrite app_assoc_s, parse_chars_escape_char, IH. reflexivity.
Qed.

Lemma parse_string_encode (o : options) (s rest : string) :
  parse_string (encode_string o s ++ rest) = Some (s, rest).
Proof.
  unfold encode_string, parse_string. simpl.
  rewrite app_assoc_s. simpl. apply parse_chars_escape.
Qed.

Lemma skip_ws_blank (w s : string) :
  blank w = true -> skip_ws (w ++ s) = skip_ws s.
Proof.
  induction w as [|c w IH]; simpl; [reflexivity|].
  intros [Hc Hw]%andb_prop. rewrite Hc. auto.
Qed.

Lemma blank_spaces (n : nat) : blank (spaces n) = true.
Proof. induction n; simpl; auto. Qed.

Lemma blank_newline_indent (o : options) (level : nat) :
  blank (newline_indent o level) = true.
Proof.
  unfold newline_indent. destruct (indent o); simpl; [apply blank_spaces | reflexivity].
Qed.

(** The separator is a comma followed by white space. *)
Lemma separator_shape (o : options) (level : nat) :
  exists w, blank w = true /\ separator o level = String "," w.
Proof.
  unfold separator. destruct (indent o) as [n|] eqn:E.
  - exists (newline_indent o level). split; [apply blank_newline_indent | reflexivity].
  - exists " ". split; reflexivity.
Qed.

(** The first character of an encoded value opens the value. *)
Lemma encode_head (o : options) (level : nat) (v : json) :
  exists c s, encode o level v = String c s /\ opens c = true.
Proof.
  destruct v as [| [|] | s | [|x items] | [|kv members]]; simpl;
    eexists _, _; (split; [reflexivity | reflexivity]).
Qed.

Lemma json_nested_ind (P : json -> Prop) :
  P JNull -> (forall b, P (JBool b)) -> (forall s, P (JStr s)) ->
  (forall items, Forall P items -> P (JArr items)) ->
  (forall members, Forall (fun kv => P (snd kv)) members -> P (JObj members)) ->
  forall v, P v.
Proof.
  intros HN HB HS HA HO. fix IH 1. intros [| b | s | items | members].
  - exact HN.
  - apply HB.
  - apply HS.
  - apply HA.
    refine ((fix go (l : list json) : Forall P l :=
               match l with
               | [] => @List.Forall_nil _ _
               | x :: xs => @List.Forall_cons _ _ x xs (IH x) (go xs)
               end) items).
  - apply HO.
    refine ((fix go (l : list (string * json)) : Forall (fun kv => P (snd kv)) l :=
               match l with
               | [] => @List.Forall_nil _ _
               | kv :: xs => @List.Forall_cons _ _ kv xs (IH (snd kv)) (go xs)
               end) members).
Qed.

Lemma skip_ws_opens (c : ascii) (s : string) :
  is_ws c = false -> skip_ws (String c s) = String c s.
Proof. intros H. simpl. now rewrite H. Qed.

(** A printed sequence is read back item by item. *)
Lemma parse_items_concat {A} (p : string -> option (A * string)) (pr : A -> string)
    (close : ascii) (sepw endw : string) :
  blank sepw = true -> blank endw = true ->
  is_ws close = false -> Ascii.eqb close "," = false ->
  forall l : list A,
    Forall (fun x => forall w rest,
              blank w = true -> p (w ++ pr x ++ rest) = Some (x, rest)) l ->
    l <> [] ->
    forall w fuel rest, blank w = true -> length l <= fuel ->
      parse_items p close fuel
        (w ++ String.concat (String "," sepw) (map pr l) ++ endw ++ String close rest)
      = Some (l, rest).
Proof.
  intros Hsep Hend Hclose Hcomma l.
  induction l as [|x l IHl]; [congruence|].
  intros HF _ w fuel rest Hw Hfuel.
  destruct fuel as [|fuel]; [simpl in Hfuel; lia|].
  inversion HF as [|? ? Hx HF']; subst.
  destruct l as [|y l].
  - simpl. rewrite Hx by assumption.
    rewrite skip_ws_blank by assumption. simpl. rewrite Hclose, Hcomma.
    now rewrite Ascii.eqb_refl.
  - change (String.concat (String "," sepw) (map pr (x :: y :: l)))
      with (pr x ++ String "," sepw ++ String.concat (String "," sepw) (map pr (y :: l))).
    rewrite !app_assoc_s. cbn [parse_items]. rewrite Hx by assumption.
    cbn [String.append]. change (skip_ws (String "," ?s)) with (String "," s).
    cbv beta iota. rewrite Ascii.eqb_refl. simpl in Hfuel.
    rewrite (IHl HF') by (try congruence; try assumption; simpl; lia).
    reflexivity.
Qed.

Lemma skip_ws_encode_string (o : options) (s r : string) :
  skip_ws (encode_string o s ++ r) = encode_string o s ++ r.
Proof. reflexivity. Qed.

Lemma parse_value_blank (fuel : nat) (w s : string) :
  blank w = true -> parse_value fuel (w ++ s) = parse_value fuel s.
Proof.
  intros H. destruct fuel; [reflexivity|].
  cbn [parse_value]. now rewrite skip_ws_blank.
Qed.

Lemma concat_head {A} (pr : A -> string) (sep : string) (x : A) (l : list A) :
  exists t, String.concat sep (map pr (x :: l)) = pr x ++ t.
Proof.
  destruct l as [|y l].
  - exists EmptyString. simpl. now rewrite app_empty_r.
  - eexists. reflexivity.
Qed.

Lemma opens_inv (c : ascii) :
  opens c = true ->
  is_ws c = false /\ Ascii.eqb c "]" = false /\ Ascii.eqb c "}" = false.
Proof.
  unfold opens. intros [[H1 H2]%andb_prop H3]%andb_prop.
  repeat split; now apply negb_true_iff.
Qed.

(** After leading white space, a printed sequence starts with the first
    character of its first item. *)
Lemma skip_ws_sequence {A} (pr : A -> string) (sep w r : string) (x : A) (l : list A) :
  blank w = true ->
  (exists c s, pr x = String c s /\ opens c = true) ->
  exists c t,
    skip_ws (w ++ String.concat sep (map pr (x :: l)) ++ r) = String c t
    /\ Ascii.eqb c "]" = false /\ Ascii.eqb c "}" = false.
Proof.
  intros Hw (c & s & Hpr & Hc).
  destruct (concat_head pr sep x l) as [t ->].
  apply opens_inv in Hc as (Hws & H1 & H2).
  exists c, ((s ++ t) ++ r). rewrite skip_ws_blank by assumption.
  rewrite Hpr. cbn [String.append]. now rewrite skip_ws_opens.
Qed.

Lemma size_pos (v : json) : 1 <= size v.
Proof. destruct v; simpl; lia. Qed.

Lemma list_sum_In {A} (f : A -> nat) (l : list A) (x : A) :
  In x l -> f x <= list_sum (map f l).
Proof.
  induction l as [|y l IH]; simpl; [tauto|].
  intros [->|H]; [lia | specialize (IH H); lia].
Qed.

Lemma length_list_sum {A} (f : A -> nat) (l : list A) :
  (forall x, 1 <= f x) -> length l <= list_sum (map f l).
Proof.
  intros Hf. induction l as [|y l IH]; simpl; [lia|]. specialize (Hf y). lia.
Qed.

Ltac char_tests :=
  repeat match goal with
  | |- context [Ascii.eqb ?a ?b] =>
      let r := eval vm_compute in (Ascii.eqb a b) in
      match r with
      | true => change (Ascii.eqb a b) with true
      | false => change (Ascii.eqb a b) with false
      end
  end; cbv beta iota.

(** Every value is read back from its text, whatever follows the text. *)
Theorem parse_value_encode (o : options) (v : json) :
  forall level fuel rest,
    size v <= fuel ->
    parse_value fuel (encode o level v ++ rest) = Some (v, rest).
Proof.
  induction v as [| b | s | items IH | members IH] using json_nested_ind;
    intros level fuel rest Hsz; (destruct fuel as [|fuel]; [simpl in Hsz; lia|]).
  - reflexivity.
  - destruct b; reflexivity.
  - cbn [encode]. unfold encode_string. cbn [String.append parse_value].
    rewrite skip_ws_opens by reflexivity. char_tests.
    rewrite app_assoc_s. cbn [String.append]. now rewrite parse_chars_escape.
  - destruct items as [|x items]; [reflexivity|].
    change (encode o level (JArr (x :: items)))
      with ("[" ++ newline_indent o (S level)
                ++ String.concat (separator o (S level)) (map (encode o (S level)) (x :: items))
                ++ newline_indent o level ++ "]").
    destruct (separator_shape o (S level)) as (sepw & Hsepw & ->).
    rewrite !app_assoc_s. cbn [String.append parse_value].
    rewrite skip_ws_opens by reflexivity. char_tests.
    destruct (skip_ws_sequence (encode o (S level)) (String "," sepw)
                (newline_indent o (S level))
                (newline_indent o level ++ String "]" rest) x items)
      as (c & t & -> & Hc & _);
      [apply blank_newline_indent | apply encode_head |].
    rewrite Hc.
    cbn [size] in Hsz. apply le_S_n in Hsz.
    rewrite (parse_items_concat (parse_value fuel) (encode o (S level)) "]" sepw
               (newline_indent o level)); try reflexivity; try assumption;
      try apply blank_newline_indent; try congruence.
    + apply List.Forall_forall. intros y Hy w rest' Hw.
      rewrite parse_value_blank by assumption.
      rewrite List.Forall_forall in IH. apply IH; [assumption|].
      pose proof (list_sum_In size _ _ Hy). lia.
    + pose proof (length_list_sum size (x :: items) size_pos). lia.
  - destruct members as [|kv members]; [reflexivity|].
    set (pr := fun kv : string * json =>
                 encode_string o (fst kv) ++ key_separator ++ encode o (S level) (snd kv)).
    change (encode o level (JObj (kv :: members)))
      with ("{" ++ newline_indent o (S level)
                ++ String.concat (separator o (S level)) (map pr (kv :: members))
                ++ newline_indent o level ++ "}").
    destruct (separator_shape o (S level)) as (sepw & Hsepw & ->).
    rewrite !app_assoc_s. cbn [String.append parse_value].
    rewrite skip_ws_opens by reflexivity. char_tests.
    destruct (skip_ws_sequence pr (String "," sepw)
                (newline_indent o (S level))
                (newline_indent o level ++ String "}" rest) kv members)
      as (c & t & -> & _ & Hc);
      [apply blank_newline_indent | eexists _, _; split; reflexivity |].
    rewrite Hc.
    cbn [size] in Hsz. apply le_S_n in Hsz.
    rewrite (parse_items_concat (parse_member (parse_value fuel)) pr "}" sepw
               (newline_indent o level)); try reflexivity; try assumption;
      try apply blank_newline_indent; try congruence.
    + apply List.Forall_forall. intros [k y] Hy w rest' Hw.
      unfold parse_member, pr. cbn [fst snd].
      rewrite skip_ws_blank by assumption.
      rewrite app_assoc_s.
      rewrite skip_ws_encode_string, parse_string_encode.
      rewrite app_assoc_s. unfold key_separator. cbn [String.append].
      rewrite skip_ws_opens by reflexivity. char_tests.
      change (String " " (encode o (S level) y ++ rest'))
        with (" " ++ encode o (S level) y ++ rest').
      rewrite (parse_value_blank fuel " " _ eq_refl).
      rewrite List.Forall_forall in IH. rewrite (IH _ Hy); [reflexivity|].
      pose proof (list_sum_In (fun kv => size (snd kv)) _ _ Hy). simpl in *. lia.
    + pose proof (length_list_sum (fun kv => size (snd kv)) (kv :: members)
                    (fun kv => size_pos (snd kv))). lia.
Qed.

Lemma length_concat_sum {A} (pr : A -> string) (sep : string) (l : list A) :
  list_sum (map (fun x => String.length (pr x)) l)
  <= String.length (String.concat sep (map pr l)).
Proof.
  induction l as [|x [|y l] IH].
  - simpl. lia.
  - simpl. lia.
  - change (String.concat sep (map pr (x :: y :: l)))
      with (pr x ++ sep ++ String.concat sep (map pr (y :: l))).
    rewrite !length_app_s. cbn [map list_sum fold_right] in *. lia.
Qed.

Lemma list_sum_le {A} (f g : A -> nat) (l : list A) :
  Forall (fun x => f x <= g x) l -> list_sum (map f l) <= list_sum (map g l).
Proof. induction 1; simpl; lia. Qed.

Lemma size_le_length (o : options) (v : json) :
  forall level, size v <= String.length (encode o level v).
Proof.
  induction v as [| b | s | items IH | members IH] using json_nested_ind;
    intros level.
  - simpl. lia.
  - destruct b; simpl; lia.
  - simpl. lia.
  - destruct items as [|x items]; [simpl; lia|].
    change (encode o level (JArr (x :: items)))
      with ("[" ++ newline_indent o (S level)
                ++ String.concat (separator o (S level)) (map (encode o (S level)) (x :: items))
                ++ newline_indent o level ++ "]").
    rewrite !length_app_s. cbn [size].
    pose proof (length_concat_sum (encode o (S level)) (separator o (S level)) (x :: items)).
    assert (list_sum (map size (x :: items))
            <= list_sum (map (fun y => String.length (encode o (S level) y)) (x :: items))).
    { apply list_sum_le. eapply List.Forall_impl; [|exact IH]. intros y Hy. apply Hy. }
    change (String.length "[") with 1. lia.
  - destruct members as [|kv members]; [simpl; lia|].
    set (pr := fun kv : string * json =>
                 encode_string o (fst kv) ++ key_separator ++ encode o (S level) (snd kv)).
    change (encode o level (JObj (kv :: members)))
      with ("{" ++ newline_indent o (S level)
                ++ String.concat (separator o (S level)) (map pr (kv :: members))
                ++ newline_indent o level ++ "}").
    rewrite !length_app_s. cbn [size].
    pose proof (length_concat_sum pr (separator o (S level)) (kv :: members)).
    assert (list_sum (map (fun kv => size (snd kv)) (kv :: members))
            <= list_sum (map (fun y => String.length (pr y)) (kv :: members))).
    { apply list_sum_le. eapply List.Forall_impl; [|exact IH]. intros y Hy.
      unfold pr. rewrite !length_app_s. specialize (Hy (S level)). cbv beta in Hy. lia. }
    change (String.length "{") with 1. lia.
Qed.

(** [json.loads(json.dumps(v, ...)) == v] *)
Theorem loads_dumps (o : options) (v : json) : loads (dumps o v) = Some v.
Proof.
  unfold loads, dumps.
  pose proof (parse_value_encode o v 0 (String.length (encode o 0 v)) EmptyString
                (size_le_length o v 0)) as H.
  rewrite app_empty_r in H. rewrite H. reflexivity.
Qed.

End JsonRoundTrip.

(** ** [inspect.getmembers]: members come sorted by name *)

Section Members.
Context {A : Type}.
Implicit Types (x y : string * A) (l : list (string * A)).

Lemma leb_trans (a b c : string) :
  String.leb a b = true -> String.leb b c = true -> String.leb a c = true.
Proof.
  intros H1%Is_true_true H2%Is_true_true. apply Is_true_true.
  exact (transitivity (R := String.le) H1 H2).
Qed.

Lemma leb_false_flip (a b : string) :
  String.leb a b = false -> String.leb b a = true.
Proof. destruct (String.leb_total a b); congruence. Qed.

Lemma insert_pair_perm x l : Permutation (insert_pair x l) (x :: l).
Proof.
  induction l as [|y l IH]; simpl; [reflexivity|].
  destruct (String.leb (fst x) (fst y)); [reflexivity|].
  rewrite IH. apply perm_swap.
Qed.

Lemma sort_pairs_perm l : Permutation (sort_pairs l) l.
Proof.
  induction l as [|x l IH]; simpl; [reflexivity|].
  now rewrite insert_pair_perm, IH.
Qed.

Lemma insert_pair_sorted x l :
  StronglySorted by_name l -> StronglySorted by_name (insert_pair x l).
Proof.
  induction 1 as [|y l Hl IH Hy]; simpl.
  - constructor; constructor.
  - destruct (String.leb (fst x) (fst y)) eqn:E.
    + constructor; [now constructor|].
      constructor; [exact E|].
      eapply List.Forall_impl; [|exact Hy].
      intros z Hz. unfold by_name, PyStr.le in *. eauto using leb_trans.
    + constructor; [exact IH|].
      rewrite insert_pair_perm. constructor; [|exact Hy].
      now apply leb_false_flip.
Qed.

Lemma sort_pairs_sorted l : StronglySorted by_name (sort_pairs l).
Proof.
  induction l as [|x l IH]; simpl; [constructor | now apply insert_pair_sorted].
Qed.

Lemma filter_sorted (f : string * A -> bool) l :
  StronglySorted by_name l -> StronglySorted by_name (List.filter f l).
Proof.
  induction 1 as [|y l Hl IH Hy]; simpl; [constructor|].
  destruct (f y); [|exact IH].
  constructor; [exact IH|].
  apply List.Forall_forall. intros z [Hz _]%List.filter_In.
  rewrite List.Forall_forall in Hy. auto.
Qed.

(** Two sorted lists with the same elements and no repeated name are the
    same list. *)
Lemma sorted_perm_eq l1 l2 :
  StronglySorted by_name l1 -> StronglySorted by_name l2 ->
  List.NoDup (map fst l1) -> Permutation l1 l2 -> l1 = l2.
Proof.
  intros H1. revert l2.
  induction H1 as [|x l1 Hl1 IH Hx]; intros l2 H2 Hnd Hp.
  - now apply Permutation_nil in Hp.
  - destruct H2 as [|y l2 Hl2 Hy].
    + symmetry in Hp. now apply Permutation_nil in Hp.
    + inversion Hnd as [|? ? Hnotin Hnd']; subst.
      assert (x = y) as ->.
      { assert (Hxin : In x (y :: l2)) by (eapply Permutation_in; [exact Hp | now left]).
        assert (Hyin : In y (x :: l1))
          by (eapply Permutation_in; [symmetry; exact Hp | now left]).
        destruct Hxin as [->|Hxin]; [reflexivity|].
        destruct Hyin as [->|Hyin]; [reflexivity|].
        rewrite List.Forall_forall in Hx, Hy.
        pose proof (Hx _ Hyin) as Hxy. pose proof (Hy _ Hxin) as Hyx.
        exfalso. apply Hnotin.
        replace (fst x) with (fst y)
          by (symmetry; apply String.leb_antisym; assumption).
        now apply in_map. }
      f_equal. apply IH; [assumption | assumption |].
      now apply Permutation_cons_inv in Hp.
Qed.

Lemma sort_pairs_unique l1 l2 :
  List.NoDup (map fst l1) -> Permutation l1 l2 -> sort_pairs l1 = sort_pairs l2.
Proof.
  intros Hnd Hp. apply sorted_perm_eq; try apply sort_pairs_sorted.
  - eapply Permutation_NoDup; [|exact Hnd].
    apply Permutation_map. symmetry. apply sort_pairs_perm.
  - now rewrite !sort_pairs_perm.
Qed.

End Members.

(** ** The manifest *)

Lemma has_key_In {V} (k : string) (d : dict V) :
  has_key k d = true <-> In k (keys d).
Proof.
  unfold has_key, keys. rewrite existsb_exists, in_map_iff. split.
  - intros (kv & Hin & Hk%String.eqb_eq). eauto.
  - intros (kv & Hk & Hin). exists kv. split; [assumption|]. now apply String.eqb_eq.
Qed.

Lemma keys_dict_set_fresh {V} (k : string) (v : V) (d : dict V) :
  ~ In k (keys d) -> keys (dict_set k v d) = (keys d ++ [k])%list.
Proof.
  intros Hk. unfold dict_set.
  destruct (has_key k d) eqn:E; [now apply has_key_In in E|].
  unfold keys. now rewrite map_app.
Qed.

Lemma In_keys_dict_set {V} (k k' : string) (v : V) (d : dict V) :
  In k' (keys (dict_set k v d)) <-> k' = k \/ In k' (keys d).
Proof.
  unfold dict_set. destruct (has_key k d) eqn:E.
  - apply has_key_In in E. unfold keys in *. rewrite map_map.
    rewrite !in_map_iff. split.
    + intros (kv & <- & Hin). cbv beta.
      destruct (String.eqb_spec (fst kv) k); simpl; eauto.
    + intros [->|(kv & <- & Hin)].
      * apply in_map_iff in E as (kv & <- & Hin). exists kv. cbv beta.
        rewrite String.eqb_refl. auto.
      * exists kv. cbv beta. destruct (String.eqb_spec (fst kv) k); simpl; auto.
  - unfold keys. rewrite map_app, in_app_iff. simpl. intuition congruence.
Qed.

Lemma Forall_dict_set {V} (P : string * V -> Prop) (k : string) (v : V) (d : dict V) :
  P (k, v) -> Forall P d -> Forall P (dict_set k v d).
Proof.
  intros Hv Hd. unfold dict_set. destruct (has_key k d).
  - apply List.Forall_forall. intros kv (kv' & <- & Hin)%in_map_iff.
    rewrite List.Forall_forall in Hd.
    destruct (String.eqb (fst kv') k); auto.
  - apply List.Forall_app. split; [assumption | now constructor].
Qed.

Lemma is_argument_false (param_name : string) :
  (String.eqb param_name "cls" || String.eqb param_name "self") = negb (is_argument param_name).
Proof.
  unfold is_argument. now rewrite negb_andb, !negb_involutive.
Qed.

Lemma keys_collect_args (type_hints : gmap string PyType) (parameters : list string) :
  forall args_dict,
    List.NoDup parameters ->
    (forall p, In p parameters -> ~ In p (keys args_dict)) ->
    keys (collect_args type_hints parameters args_dict)
    = (keys args_dict ++ List.filter is_argument parameters)%list.
Proof.
  induction parameters as [|p ps IH]; intros args_dict Hnd Hfresh; simpl.
  - now rewrite app_nil_r.
  - inversion Hnd as [|? ? Hp Hnd']; subst.
    rewrite is_argument_false. destruct (is_argument p); simpl.
    + rewrite IH; [| assumption |].
      * rewrite keys_dict_set_fresh by (apply Hfresh; now left).
        now rewrite <- app_assoc.
      * intros q Hq [->|Hin]%In_keys_dict_set; [contradiction|].
        apply (Hfresh q); [now right | assumption].
    + apply IH; [assumption|]. intros q Hq. apply Hfresh. now right.
Qed.

Lemma collect_args_records (type_hints : gmap string PyType) (parameters : list string) :
  forall args_dict,
    Forall argument_record args_dict ->
    Forall argument_record (collect_args type_hints parameters args_dict).
Proof.
  induction parameters as [|p ps IH]; intros args_dict H; simpl; [assumption|].
  destruct (String.eqb p "cls" || String.eqb p "self"); [now apply IH|].
  apply IH, Forall_dict_set; [|assumption].
  red. simpl. eauto.
Qed.

Lemma collect_tools_spec (cls : PyClass) (members : list (string * PyFunction)) :
  forall tools_list,
    collect_tools cls members tools_list
    = (fun entries => (tools_list ++ entries)%list)
        <$> mapM (fun member => tool_entry cls (fst member) (snd member))
                 (List.filter is_tool members).
Proof.
  induction members as [|[name method] members IH]; intros tools_list; simpl.
  - now rewrite app_nil_r.
  - unfold is_tool at 1. cbn [fst snd].
    destruct (PyStr.startswith name "_"); simpl; [apply IH|].
    destruct (String.eqb name "generate_tools_json_doc"); simpl; [apply IH|].
    destruct (bool_decide (is_Some (f_kernel_function method))); simpl; [|apply IH].
    destruct (tool_entry cls name method) as [entry|]; simpl; [|reflexivity].
    rewrite IH.
    destruct (mapM _ (List.filter is_tool members)) as [entries|]; simpl; [|reflexivity].
    now rewrite <- app_assoc.
Qed.

(** The list holds one entry per selected member, in the order of the
    members. *)
Lemma tools_list_of_Forall2 (cls : PyClass) (tools_list : list (dict string)) :
  tools_list_of cls = Some tools_list
  <-> Forall2 (fun member entry => tool_entry cls (fst member) (snd member) = Some entry)
        (List.filter is_tool (getmembers_isfunction cls)) tools_list.
Proof.
  unfold tools_list_of. rewrite collect_tools_spec, <- mapM_Some.
  destruct (mapM _ _); simpl; split; congruence.
Qed.

Lemma tool_entry_Some (cls : PyClass) (name : string) (method : PyFunction)
    (entry : dict string) :
  tool_entry cls name method = Some entry ->
  exists type_hints,
    f_type_hints method = Some type_hints
    /\ entry = [("agent", agent_name cls);
                ("function", name);
                ("description", method_description method);
                ("arguments",
                 arguments_string (collect_args type_hints (f_parameters method) []))].
Proof.
  unfold tool_entry. destruct (f_type_hints method) as [type_hints|]; [|discriminate].
  intros [= <-]. eauto.
Qed.

Lemma generate_tools_json_doc_Some (cls : PyClass) (s : string) :
  generate_tools_json_doc cls = Some s
  <-> exists tools_list,
        tools_list_of cls = Some tools_list
        /\ s = Json.dumps manifest_options (json_of_tools tools_list).
Proof.
  unfold generate_tools_json_doc. destruct (tools_list_of cls) as [tl|].
  - split; [intros [= <-]; eauto | intros (? & [= <-] & ->); reflexivity].
  - split; [discriminate | intros (? & [=] & _)].
Qed.

Lemma tools_list_function_names (cls : PyClass) (tools_list : list (dict string)) :
  tools_list_of cls = Some tools_list ->
  map (dict_get "function") tools_list
  = map Some (map fst (List.filter is_tool (getmembers_isfunction cls))).
Proof.
  intros H%tools_list_of_Forall2.
  induction H as [|member entry members tools_list He H IH]; [reflexivity|].
  apply tool_entry_Some in He as (type_hints & _ & ->). simpl. now rewrite IH.
Qed.

Lemma json_field_of_strings (k : string) (d : dict string) :
  json_field k (json_of_strings d) = Json.JStr <$> dict_get k d.
Proof.
  unfold json_of_strings. cbn [json_field].
  induction d as [|[k' v] d IH]; [reflexivity|].
  cbn [map dict_get fst snd]. destruct (String.eqb k' k); [reflexivity | exact IH].
Qed.

(** ** Reading the arguments text back *)

Lemma has_char_app (c : ascii) (a b : string) :
  has_char c (a ++ b) = has_char c a || has_char c b.
Proof.
  induction a as [|d a IH]; [reflexivity|].
  cbn [String.append has_char]. now rewrite IH, orb_assoc.
Qed.

Lemma has_char_concat (c : ascii) (sep : string) (l : list string) :
  has_char c sep = false ->
  Forall (fun x => has_char c x = false) l ->
  has_char c (String.concat sep l) = false.
Proof.
  intros Hsep. induction 1 as [|x l Hx Hl IH]; [reflexivity|].
  destruct l as [|y l]; [exact Hx|].
  change (String.concat sep (x :: y :: l)) with (x ++ sep ++ String.concat sep (y :: l)).
  now rewrite !has_char_app, Hx, Hsep, IH.
Qed.

Lemma has_char_escape_char (ens : bool) (c : ascii) :
  has_char "'" (Json.escape_char ens c) = Ascii.eqb c "'".
Proof.
  destruct c as [b0 b1 b2 b3 b4 b5 b6 b7].
  destruct ens, b0, b1, b2, b3, b4, b5, b6, b7; reflexivity.
Qed.

Lemma has_char_escape (ens : bool) (s : string) :
  has_char "'" (Json.escape ens s) = has_char "'" s.
Proof.
  induction s as [|c s IH]; [reflexivity|].
  cbn [Json.escape has_char]. now rewrite has_char_app, has_char_escape_char, IH.
Qed.

Lemma has_char_encode_string (o : Json.options) (s : string) :
  has_char "'" (Json.encode_string o s) = has_char "'" s.
Proof.
  unfold Json.encode_string. cbn [has_char].
  rewrite has_char_app, has_char_escape. cbn. now rewrite orb_false_r.
Qed.

Lemma has_char_spaces (n : nat) : has_char "'" (Json.spaces n) = false.
Proof. induction n; [reflexivity | exact IHn]. Qed.

Lemma has_char_newline_indent (o : Json.options) (level : nat) :
  has_char "'" (Json.newline_indent o level) = false.
Proof.
  unfold Json.newline_indent. destruct (Json.indent o); [|reflexivity].
  cbn [has_char]. apply has_char_spaces.
Qed.

Lemma has_char_separator (o : Json.options) (level : nat) :
  has_char "'" (Json.separator o level) = false.
Proof.
  unfold Json.separator. destruct (Json.indent o) eqn:E; [|reflexivity].
  rewrite has_char_app. unfold Json.newline_indent. rewrite E.
  cbn [has_char]. apply has_char_spaces.
Qed.

(** [json.dumps] writes a single quote only where a string holds one. *)
Lemma has_char_encode (o : Json.options) (v : Json.json) :
  forall level,
    Forall (fun s => has_char "'" s = false) (strings_of v) ->
    has_char "'" (Json.encode o level v) = false.
Proof.
  induction v as [| b | s | items IH | members IH] using json_nested_ind;
    intros level Hv.
  - reflexivity.
  - destruct b; reflexivity.
  - cbn [Json.encode]. rewrite has_char_encode_string. now inversion Hv.
  - destruct items as [|x items]; [reflexivity|].
    change (Json.encode o level (Json.JArr (x :: items)))
      with ("[" ++ Json.newline_indent o (S level)
                ++ String.concat (Json.separator o (S level))
                     (map (Json.encode o (S level)) (x :: items))
                ++ Json.newline_indent o level ++ "]").
    rewrite !has_char_app, !has_char_newline_indent.
    rewrite has_char_concat; [reflexivity | apply has_char_separator |].
    apply List.Forall_map. cbn [strings_of] in Hv.
    revert IH Hv. generalize (x :: items). clear. intros l IH.
    induction IH as [|y l Hy _ IHl]; intros Hv; constructor.
    + apply Hy. cbn [flat_map] in Hv. now apply List.Forall_app in Hv.
    + apply IHl. cbn [flat_map] in Hv. now apply List.Forall_app in Hv.
  - destruct members as [|kv members]; [reflexivity|].
    set (pr := fun kv : string * Json.json =>
                 Json.encode_string o (fst kv) ++ Json.key_separator
                   ++ Json.encode o (S level) (snd kv)).
    change (Json.encode o level (Json.JObj (kv :: members)))
      with ("{" ++ Json.newline_indent o (S level)
                ++ String.concat (Json.separator o (S level)) (map pr (kv :: members))
                ++ Json.newline_indent o level ++ "}").
    rewrite !has_char_app, !has_char_newline_indent.
    rewrite has_char_concat; [reflexivity | apply has_char_separator |].
    apply List.Forall_map. cbn [strings_of] in Hv.
    revert IH Hv. generalize (kv :: members). subst pr. clear. intros l IH.
    induction IH as [|y l Hy _ IHl]; intros Hv; constructor.
    + cbn [flat_map] in Hv. inversion Hv as [|? ? Hk Hrest]; subst.
      apply List.Forall_app in Hrest as [Hval _].
      rewrite !has_char_app, has_char_encode_string, Hk.
      now rewrite (Hy (S level) Hval).
    + apply IHl. cbn [flat_map] in Hv. inversion Hv as [|? ? _ Hrest]; subst.
      now apply List.Forall_app in Hrest.
Qed.

Lemma replace_back (a b : ascii) (s : string) :
  has_char b s = false -> PyStr.replace b a (PyStr.replace a b s) = s.
Proof.
  induction s as [|c s IH]; [reflexivity|].
  cbn [has_char PyStr.replace]. intros [Hc Hs]%orb_false_elim.
  rewrite (IH Hs). f_equal.
  destruct (Ascii.eqb_spec c a) as [->|Hca].
  - now rewrite Ascii.eqb_refl.
  - now rewrite Hc.
Qed.

(** The text of the [arguments] field of a value without single quote reads
    back as the value once the double quotes are put back. *)
Lemma loads_single_quoted (v : Json.json) :
  Forall (fun s => has_char "'" s = false) (strings_of v) ->
  Json.loads (dq (PyStr.replace Json.quote "'" (Json.dumps Json.default_options v)))
  = Some v.
Proof.
  intros Hv. unfold dq. rewrite replace_back; [apply loads_dumps|].
  now apply has_char_encode.
Qed.

Lemma arguments_text_dumps (args : list (string * (string * string))) :
  arguments_text
    (PyStr.replace Json.quote "'" (Json.dumps Json.default_options (arguments_json args)))
    args.
Proof.
  split; [reflexivity|]. intros Hargs. apply loads_single_quoted.
  unfold arguments_json. cbn [strings_of].
  induction Hargs as [|a args (Hn & Ht & Hy) _ IH]; [constructor|].
  cbn [map flat_map fst snd argument_json strings_of app].
  repeat (constructor; [assumption || reflexivity|]). exact IH.
Qed.

(** The mapping built for a method, as names with title and type. *)
Lemma json_of_args_records (args_dict : dict (dict string)) :
  Forall argument_record args_dict ->
  exists args,
    map fst args = keys args_dict /\ json_of_args args_dict = arguments_json args.
Proof.
  induction 1 as [|[k record] d (title & type & Hrecord) _ (args & Hkeys & Hjson)].
  - exists []. split; reflexivity.
  - exists ((k, (title, type)) :: args). cbn [fst snd] in Hrecord. subst record. split.
    + cbn [map keys fst]. f_equal. exact Hkeys.
    + unfold json_of_args, arguments_json in *. injection Hjson as Hjson.
      cbn [map fst snd]. now rewrite Hjson.
Qed.

Lemma keys_dict_set {V} (k : string) (v : V) (d : dict V) :
  keys (dict_set k v d) = if has_key k d then keys d else (keys d ++ [k])%list.
Proof.
  unfold dict_set, keys. destruct (has_key k d).
  - rewrite map_map. apply map_ext_in. intros kv _.
    destruct (String.eqb_spec (fst kv) k); [now subst | reflexivity].
  - now rewrite map_app.
Qed.

Lemma NoDup_keys_dict_set {V} (k : string) (v : V) (d : dict V) :
  List.NoDup (keys d) -> List.NoDup (keys (dict_set k v d)).
Proof.
  intros Hnd. rewrite keys_dict_set. destruct (has_key k d) eqn:E; [exact Hnd|].
  apply (Permutation_NoDup (Permutation_cons_append (keys d) k)).
  constructor; [|exact Hnd]. intros Hin%has_key_In. congruence.
Qed.

Lemma NoDup_keys_collect_args (type_hints : gmap string PyType) (parameters : list string) :
  forall args_dict,
    List.NoDup (keys args_dict) ->
    List.NoDup (keys (collect_args type_hints parameters args_dict)).
Proof.
  induction parameters as [|p ps IH]; intros args_dict Hnd; simpl; [exact Hnd|].
  destruct (String.eqb p "cls" || String.eqb p "self"); [now apply IH|].
  now apply IH, NoDup_keys_dict_set.
Qed.

Lemma In_keys_collect_args (type_hints : gmap string PyType) (parameters : list string)
    (name : string) :
  forall args_dict,
    In name (keys (collect_args type_hints parameters args_dict))
    <-> In name (keys args_dict) \/ (In name parameters /\ is_argument name = true).
Proof.
  induction parameters as [|p ps IH]; intros args_dict; simpl.
  - tauto.
  - rewrite is_argument_false. destruct (is_argument p) eqn:Hp; simpl.
    + rewrite IH, In_keys_dict_set. split.
      * intros [[-> | H] | [H1 H2]]; auto.
      * intros [H | [[-> | H1] H2]]; auto.
    + rewrite IH. split.
      * intros [H | [H1 H2]]; auto.
      * intros [H | [[-> | H1] H2]]; auto. congruence.
Qed.

(** What the [arguments] field of the entry of a method holds. *)
Lemma tool_entry_arguments (cls : PyClass) (name : string) (method : PyFunction)
    (entry : dict string) :
  tool_entry cls name method = Some entry ->
  exists (arguments : string) (args : list (string * (string * string))),
    entry = [("agent", agent_name cls);
             ("function", name);
             ("description", method_description method);
             ("arguments", arguments)]
    /\ arguments_text arguments args
    /\ List.NoDup (map fst args)
    /\ (forall param_name,
          In param_name (map fst args)
          <-> In param_name (f_parameters method) /\ is_argument param_name = true)
    /\ (List.NoDup (f_parameters method) ->
        map fst args = List.filter is_argument (f_parameters method)).
Proof.
  intros (type_hints & _ & ->)%tool_entry_Some.
  destruct (json_of_args_records (collect_args type_hints (f_parameters method) []))
    as (args & Hkeys & Hjson); [apply collect_args_records; constructor|].
  eexists _, args. split; [reflexivity|].
  unfold arguments_string. rewrite Hjson, Hkeys.
  split; [apply arguments_text_dumps|]. split; [|split].
  - apply NoDup_keys_collect_args. constructor.
  - intros param_name. rewrite In_keys_collect_args. simpl. tauto.
  - intros Hnd. now rewrite keys_collect_args by (auto; intros ? ? []).
Qed.

(** C1: for the class DocumentTools, the members the generator lists (function
    members that carry [__kernel_function__], whose name does not start with
    an underscore and is not [generate_tools_json_doc]) are
    [read_document_contents] and [save_to_excel]; the manifest, read back, has
    one entry for each of them, in this order; and the [arguments] text of
    each entry, read back, is a mapping with exactly one key, the one
    parameter of the method. *)
Theorem manifest_lists_annotated_methods (hr : string) (marker : string -> KernelMarker) :
  map fst (List.filter is_tool (getmembers_isfunction (DocumentTools hr marker)))
  = ["read_document_contents"; "save_to_excel"]
  /\ exists (s : string) (first second : Json.json) (arguments1 arguments2 : string),
       generate_tools_json_doc (DocumentTools hr marker) = Some s
       /\ Json.loads s = Some (Json.JArr [first; second])
       /\ json_field "function" first = Some (Json.JStr "read_document_contents")
       /\ json_field "function" second = Some (Json.JStr "save_to_excel")
       /\ json_field "arguments" first = Some (Json.JStr arguments1)
       /\ json_field "arguments" second = Some (Json.JStr arguments2)
       /\ arguments1
          = "{'document': {'description': 'document', 'title': 'Document', 'type': 'bytes'}}"
       /\ arguments2
          = "{'html_content': {'description': 'html_content', 'title': 'Html Content', 'type': 'str'}}"
       /\ Json.loads (dq arguments1)
          = Some (Json.JObj [("document", argument_json "document" "Document" "bytes")])
       /\ Json.loads (dq arguments2)
          = Some (Json.JObj
                    [("html_content", argument_json "html_content" "Html Content" "str")])
       /\ List.filter is_argument (f_parameters (read_document_contents_function marker))
          = ["document"]
       /\ List.filter is_argument (f_parameters (save_to_excel_function marker))
          = ["html_content"].
Proof.
  split; [reflexivity|].
  destruct (tools_list_of (DocumentTools hr marker)) as [tools_list|] eqn:E;
    [|discriminate E].
  exists (Json.dumps manifest_options (json_of_tools tools_list)).
  injection E as <-.
  eexists _, _, _, _.
  split; [reflexivity|]. split; [apply loads_dumps|].
  repeat split; reflexivity.
Qed.

(** C2: the returned string reads back as a JSON array with one object for
    each method listed; every object has exactly the four fields [agent],
    [function], [description] and [arguments], each holding a string; the
    [arguments] string is the text [json.dumps] writes, with single quotes
    for the double ones, for a mapping that has one key for each parameter
    name of the method other than [cls] and [self], and no other key, each
    key leading to an object with the fields [description], [title] and
    [type]; where no single quote is involved the text reads back as that
    mapping. *)
Theorem manifest_is_array_of_entries (cls : PyClass) (s : string) :
  generate_tools_json_doc cls = Some s ->
  exists objects : list Json.json,
    Json.loads s = Some (Json.JArr objects)
    /\ Forall2 (fun member object =>
         exists (agent description arguments : string)
                (args : list (string * (string * string))),
           object = Json.JObj [("agent", Json.JStr agent);
                               ("function", Json.JStr (fst member));
                               ("description", Json.JStr description);
                               ("arguments", Json.JStr arguments)]
           /\ arguments_text arguments args
           /\ List.NoDup (map fst args)
           /\ (forall param_name,
                 In param_name (map fst args)
                 <-> In param_name (f_parameters (snd member))
                     /\ is_argument param_name = true))
         (List.filter is_tool (getmembers_isfunction cls)) objects.
Proof.
  intros (tools_list & Htl & ->)%generate_tools_json_doc_Some.
  exists (map json_of_strings tools_list). split; [apply loads_dumps|].
  apply tools_list_of_Forall2 in Htl.
  induction Htl as [|member entry members tools_list He H IH]; constructor; [|exact IH].
  apply tool_entry_arguments in He as (arguments & args & -> & Htext & Hnd & Hkeys & _).
  eexists _, _, arguments, args. split; [reflexivity|]. auto.
Qed.

Lemma manifest_is_array_of_entries_witness :
  exists s,
    generate_tools_json_doc HrDocumentTools = Some s
    /\ exists objects : list Json.json,
         Json.loads s = Some (Json.JArr objects)
         /\ Forall2 (fun member object =>
              exists (agent description arguments : string)
                     (args : list (string * (string * string))),
                object = Json.JObj [("agent", Json.JStr agent);
                                    ("function", Json.JStr (fst member));
                                    ("description", Json.JStr description);
                                    ("arguments", Json.JStr arguments)]
                /\ arguments_text arguments args
                /\ List.NoDup (map fst args)
                /\ (forall param_name,
                      In param_name (map fst args)
                      <-> In param_name (f_parameters (snd member))
                          /\ is_argument param_name = true))
              (List.filter is_tool (getmembers_isfunction HrDocumentTools)) objects.
Proof.
  eexists. split; [vm_compute; reflexivity|].
  apply (manifest_is_array_of_entries HrDocumentTools). vm_compute. reflexivity.
Defined.

(** C3: [read_document_contents] is a constant function: whatever the bytes of
    [document], it returns the fixed text [html_content]. *)
Theorem read_document_contents_constant (document1 document2 : list Byte.byte) :
  read_document_contents document1 = html_content
  /\ read_document_contents document1 = read_document_contents document2.
Proof. split; reflexivity. Qed.

(** C8: every entry of the manifest has its [agent] field equal to the class
    constant [agent_name], whichever method it describes. *)
Theorem manifest_agent_is_agent_name (cls : PyClass) (s : string) :
  generate_tools_json_doc cls = Some s ->
  exists tools_list : list (dict string),
    Json.loads s = Some (json_of_tools tools_list)
    /\ Forall (fun entry => dict_get "agent" entry = Some (agent_name cls)) tools_list.
Proof.
  intros (tools_list & Htl & ->)%generate_tools_json_doc_Some.
  exists tools_list. split; [apply loads_dumps|].
  apply tools_list_of_Forall2 in Htl.
  induction Htl as [|member entry members tools_list He H IH]; constructor; [|exact IH].
  now apply tool_entry_Some in He as (type_hints & _ & ->).
Qed.

Lemma manifest_agent_is_agent_name_witness :
  exists s,
    generate_tools_json_doc HrDocumentTools = Some s
    /\ exists tools_list : list (dict string),
         Json.loads s = Some (json_of_tools tools_list)
         /\ Forall (fun entry => dict_get "agent" entry = Some "Hr_Agent") tools_list.
Proof.
  eexists. split; [vm_compute; reflexivity|].
  apply (manifest_agent_is_agent_name HrDocumentTools). vm_compute. reflexivity.
Defined.

(** C9: the entry of [save_to_excel], a method with a docstring and a
    description given to the decorator, both non-empty, does not carry the
    description given to the decorator: the decorator of [semantic_kernel]
    stores [True] under [__kernel_function__], [True] has no attribute
    [description], and the entry carries the stripped docstring; the entry of
    [read_document_contents], which has no docstring, carries the empty
    string although its decorator was given a description. Had the decorator
    stored an object that keeps the description, the entry would carry it. *)
Theorem description_prefers_kernel_function (hr : string) :
  f_doc (save_to_excel_function stores_True) = Some save_to_excel_doc
  /\ PyStr.strip save_to_excel_doc <> EmptyString
  /\ PyStr.strip save_to_excel_doc <> "Save the extracted HTML tables to an Excel file."
  /\ (exists (s : string) (first second : Json.json),
        generate_tools_json_doc (DocumentTools hr stores_True) = Some s
        /\ Json.loads s = Some (Json.JArr [first; second])
        /\ json_field "function" first = Some (Json.JStr "read_document_contents")
        /\ json_field "description" first = Some (Json.JStr EmptyString)
        /\ json_field "function" second = Some (Json.JStr "save_to_excel")
        /\ json_field "description" second
           = Some (Json.JStr (PyStr.strip save_to_excel_doc)))
  /\ method_description (save_to_excel_function keeps_description)
     = "Save the extracted HTML tables to an Excel file."
  /\ method_description (read_document_contents_function keeps_description)
     = "Read contents of the data provided, extract tables and return them on HTML format.".
Proof.
  split; [reflexivity|]. split; [discriminate|]. split; [discriminate|].
  split; [|split; reflexivity].
  destruct (tools_list_of (DocumentTools hr stores_True)) as [tools_list|] eqn:E;
    [|discriminate E].
  exists (Json.dumps manifest_options (json_of_tools tools_list)).
  injection E as <-.
  eexists _, _.
  split; [reflexivity|]. split; [apply loads_dumps|].
  repeat split; reflexivity.
Qed.

(** ** Order and determinism of the members *)

Lemma keys_omap_as_function (l : dict PyObject) (k : string) :
  In k (map fst (omap as_function l)) -> In k (map fst l).
Proof.
  induction l as [|[name [f| |]] l IH]; simpl; auto.
  intros [->|H]; auto.
Qed.

Lemma NoDup_omap_as_function (l : dict PyObject) :
  List.NoDup (map fst l) -> List.NoDup (map fst (omap as_function l)).
Proof.
  induction l as [|[name o] l IH]; simpl; [constructor|].
  intros Hnd. inversion Hnd as [|? ? Hnotin Hnd']; subst.
  destruct o as [f| |]; simpl; auto.
  constructor; [|auto]. intros H. apply Hnotin. now apply keys_omap_as_function.
Qed.

(** The members do not depend on the order in which the attributes of the
    class are enumerated. *)
Lemma getmembers_isfunction_perm (cls1 cls2 : PyClass) :
  List.NoDup (keys (namespace cls1)) ->
  Permutation (namespace cls1) (namespace cls2) ->
  getmembers_isfunction cls1 = getmembers_isfunction cls2.
Proof.
  intros Hnd Hp. unfold getmembers_isfunction.
  apply sort_pairs_unique; [now apply NoDup_omap_as_function|].
  now apply omap_Permutation.
Qed.

Lemma getmembers_isfunction_sorted (cls : PyClass) :
  StronglySorted by_name (getmembers_isfunction cls).
Proof. apply sort_pairs_sorted. Qed.

Lemma sorted_names {A} (l : list (string * A)) :
  StronglySorted by_name l -> StronglySorted PyStr.le (map fst l).
Proof.
  induction 1 as [|x l Hl IH Hx]; simpl; constructor; [exact IH|].
  apply List.Forall_map. exact Hx.
Qed.

Lemma collect_tools_agent (cls1 cls2 : PyClass) (members : list (string * PyFunction)) :
  agent_name cls1 = agent_name cls2 ->
  forall tools_list,
    collect_tools cls1 members tools_list = collect_tools cls2 members tools_list.
Proof.
  intros Ha. induction members as [|[name method] members IH]; intros tools_list;
    simpl; [reflexivity|].
  unfold tool_entry. rewrite Ha.
  repeat (match goal with |- context [match ?x with _ => _ end] => destruct x end);
    auto.
Qed.

(** C10: the manifest is a function of the class alone: two classes with the
    same [agent_name] and the same attributes, enumerated in any order, give
    the same string, character for character; and the entries of the string,
    read back, are those of the methods listed, in ascending order of function
    name ([str] order). *)
Theorem manifest_deterministic_and_sorted (cls1 cls2 : PyClass) (s : string) :
  agent_name cls1 = agent_name cls2 ->
  Permutation (namespace cls1) (namespace cls2) ->
  List.NoDup (keys (namespace cls1)) ->
  generate_tools_json_doc cls1 = Some s ->
  generate_tools_json_doc cls2 = Some s
  /\ exists (objects : list Json.json) (names : list string),
       Json.loads s = Some (Json.JArr objects)
       /\ map (json_field "function") objects = map (fun name => Some (Json.JStr name)) names
       /\ names = map fst (List.filter is_tool (getmembers_isfunction cls1))
       /\ StronglySorted PyStr.le names.
Proof.
  intros Ha Hp Hnd Hs. split.
  - rewrite <- Hs. unfold generate_tools_json_doc, tools_list_of.
    rewrite <- (getmembers_isfunction_perm cls1 cls2 Hnd Hp).
    now rewrite (collect_tools_agent cls1 cls2 _ Ha).
  - apply generate_tools_json_doc_Some in Hs as (tools_list & Htl & ->).
    exists (map json_of_strings tools_list),
           (map fst (List.filter is_tool (getmembers_isfunction cls1))).
    split; [apply loads_dumps|]. split; [|split; [reflexivity|]].
    + rewrite map_map.
      rewrite (map_ext _ (fun entry => Json.JStr <$> dict_get "function" entry))
        by (intros entry; apply json_field_of_strings).
      rewrite <- (map_map (dict_get "function") (fmap Json.JStr)).
      rewrite (tools_list_function_names _ _ Htl). now rewrite !map_map.
    + apply sorted_names, filter_sorted, getmembers_isfunction_sorted.
Qed.

Lemma manifest_deterministic_and_sorted_witness :
  exists s,
    generate_tools_json_doc HrDocumentTools = Some s
    /\ generate_tools_json_doc
         {| agent_name := "Hr_Agent"; namespace := rev (namespace HrDocumentTools) |}
       = Some s
    /\ exists (objects : list Json.json) (names : list string),
         Json.loads s = Some (Json.JArr objects)
         /\ map (json_field "function") objects
            = map (fun name => Some (Json.JStr name)) names
         /\ names = ["read_document_contents"; "save_to_excel"]
         /\ StronglySorted PyStr.le names.
Proof.
  eexists. split; [vm_compute; reflexivity|].
  apply (manifest_deterministic_and_sorted HrDocumentTools
           {| agent_name := "Hr_Agent"; namespace := rev (namespace HrDocumentTools) |}).
  - reflexivity.
  - apply Permutation_rev.
  - apply NoDup_ListNoDup.
    apply (bool_decide_eq_true_1 (NoDup (keys (namespace HrDocumentTools)))).
    vm_compute. reflexivity.
  - vm_compute. reflexivity.
Defined.

(** ** [get_all_kernel_functions] *)

Lemma collect_kernel_functions_spec (members : list (string * PyFunction)) :
  forall kernel_functions,
    List.NoDup (keys kernel_functions ++ map fst members)%list ->
    collect_kernel_functions members kernel_functions
    = (kernel_functions ++ List.filter is_selected members)%list.
Proof.
  induction members as [|[name method] members IH]; intros acc Hnd;
    cbn [collect_kernel_functions List.filter].
  - now rewrite app_nil_r.
  - assert (Hnd' : List.NoDup (keys acc ++ map fst members)%list)
      by (eapply NoDup_remove_1; exact Hnd).
    assert (Hfresh : ~ In name (keys acc)).
    { apply NoDup_remove_2 in Hnd. rewrite in_app_iff in Hnd. tauto. }
    unfold is_selected at 1. cbn [fst snd].
    destruct (PyStr.startswith name "_"); cbn [negb andb orb]; [now apply IH|].
    destruct (String.eqb name "get_all_kernel_functions"); cbn [negb andb orb];
      [now apply IH|].
    destruct (bool_decide (is_Some (f_kernel_function method))
              || PyStr.contains "kernel_function" (str_annotations (f_annotations method)));
      [|now apply IH].
    unfold dict_set. destruct (has_key name acc) eqn:E;
      [now apply has_key_In in E|].
    rewrite IH; [now rewrite <- app_assoc|].
    unfold keys in *. rewrite map_app, <- app_assoc. simpl.
    exact Hnd.
Qed.

(** What the function returns: the members it selects, which include the
    undecorated ones whose printed annotations mention [kernel_function]. *)
Lemma get_all_kernel_functions_spec (cls : PyClass) :
  List.NoDup (keys (namespace cls)) ->
  get_all_kernel_functions cls = List.filter is_selected (getmembers_isfunction cls).
Proof.
  intros Hnd. unfold get_all_kernel_functions.
  rewrite collect_kernel_functions_spec; [reflexivity|]. simpl.
  eapply Permutation_NoDup; [|apply NoDup_omap_as_function; exact Hnd].
  apply Permutation_map. symmetry. apply sort_pairs_perm.
Qed.

(** C4: on the class DocumentTools the keys are exactly
    [read_document_contents] and [save_to_excel], each mapped to its function
    object; on a subclass that adds the undecorated static method
    [helper(kernel_function: int)], the dictionary also has the key [helper],
    although that function carries no [__kernel_function__]. *)
Theorem get_all_kernel_functions_at_helper (hr : string) (marker : string -> KernelMarker) :
  get_all_kernel_functions (DocumentTools hr marker)
  = [("read_document_contents", read_document_contents_function marker);
     ("save_to_excel", save_to_excel_function marker)]
  /\ keys (get_all_kernel_functions (SubclassWithHelper hr marker))
     = ["helper"; "read_document_contents"; "save_to_excel"]
  /\ dict_get "helper" (get_all_kernel_functions (SubclassWithHelper hr marker))
     = Some helper_function
  /\ f_kernel_function helper_function = None
  /\ map fst (List.filter is_kernel_function
                (getmembers_isfunction (SubclassWithHelper hr marker)))
     = ["read_document_contents"; "save_to_excel"].
Proof. repeat split; reflexivity. Qed.

(** ** [save_to_excel] *)

Section SaveToExcelProperties.
Context {L : Libraries}.
Implicit Types (fs : FS) (now : Time) (w : Writer) (tables : list Tag)
  (dfs : list DataFrame).

Lemma write_tables_cons i table rest w now fs :
  write_tables i (table :: rest) w now fs
  = match read_html (tag_str table) with
    | inl e => (inl (Raised e), fs)
    | inr [] => (inl IndexError, fs)
    | inr (df :: _) =>
        match to_excel_error df (w_sheets w) (sheet_name_of i) with
        | Some e => (inl (Raised e), fs)
        | None =>
            write_tables (S i) rest
              (with_sheets w (w_sheets w ++ [(sheet_name_of i, df)])%list) now fs
        end
    end.
Proof.
  cbn [write_tables]. unfold first_item, to_excel, call, check; unfold bind, ret, raise.
  destruct (read_html (tag_str table)) as [e | [|df more]]; try reflexivity.
  destruct (to_excel_error df (w_sheets w) (sheet_name_of i)); reflexivity.
Qed.

Lemma write_tables_returns i tables sheets sheets' :
  loop_returns i tables sheets sheets' ->
  forall w now fs, w_sheets w = sheets ->
    write_tables i tables w now fs = (inr (with_sheets w sheets'), fs).
Proof.
  induction 1 as [i sheets | i table rest sheets df more sheets' Hread Hto _ IH];
    intros w now fs Hw; subst.
  - destruct w; reflexivity.
  - rewrite write_tables_cons, Hread, Hto. now rewrite IH by reflexivity.
Qed.

Lemma write_tables_raises i tables sheets e :
  loop_raises i tables sheets e ->
  forall w now fs, w_sheets w = sheets -> write_tables i tables w now fs = (inl e, fs).
Proof.
  induction 1 as [i table rest sheets e Hread
                 | i table rest sheets Hread
                 | i table rest sheets df more e Hread Hto
                 | i table rest sheets df more e Hread Hto _ IH];
    intros w now fs Hw; subst; rewrite write_tables_cons, Hread; try reflexivity;
    rewrite Hto; [reflexivity|].
  now rewrite IH by reflexivity.
Qed.

(** The loop either returns or raises, and says which operation did it. *)
Lemma write_tables_cases tables :
  forall i w,
    (exists sheets', loop_returns i tables (w_sheets w) sheets')
    \/ (exists e, loop_raises i tables (w_sheets w) e).
Proof.
  induction tables as [|table rest IH]; intros i w.
  - left. eexists. constructor.
  - destruct (read_html (tag_str table)) as [e | [|df more]] eqn:Hread.
    + right. eexists. eapply read_html_raises; eassumption.
    + right. eexists. eapply subscript_raises; eassumption.
    + destruct (to_excel_error df (w_sheets w) (sheet_name_of i)) as [e|] eqn:Hto.
      * right. eexists. eapply to_excel_raises; eassumption.
      * destruct (IH (S i) (with_sheets w (w_sheets w ++ [(sheet_name_of i, df)])%list))
          as [[sheets' H] | [e H]]; cbn in H.
        -- left. eexists. eapply loop_next; eassumption.
        -- right. eexists. eapply later_raises; eassumption.
Qed.

Lemma loop_returns_sheets tables dfs :
  Forall2 (fun table df => exists more, read_html (tag_str table) = inr (df :: more))
    tables dfs ->
  forall i sheets,
    to_excel_accepts i dfs sheets ->
    loop_returns i tables sheets (sheets ++ sheets_from i dfs)%list.
Proof.
  induction 1 as [|table df tables dfs [more Hread] _ IH]; intros i sheets Hacc; simpl.
  - rewrite app_nil_r. constructor.
  - destruct Hacc as [Hto Hacc]. eapply loop_next; [exact Hread | exact Hto |].
    specialize (IH _ _ Hacc). now rewrite <- app_assoc in IH.
Qed.

Lemma sheets_from_names i dfs :
  map fst (sheets_from i dfs)
  = map (fun k => "Table_" ++ PyStr.of_nat k) (seq (i + 1) (length dfs)).
Proof.
  revert i. induction dfs as [|df dfs IH]; intros i; simpl; [reflexivity|].
  unfold sheet_name_of at 1. f_equal. rewrite IH. now rewrite Nat.add_succ_l.
Qed.

Lemma sheets_from_frames i dfs : map snd (sheets_from i dfs) = dfs.
Proof. revert i. induction dfs as [|df dfs IH]; intros i; simpl; [|rewrite IH]; auto. Qed.

(** The loop raises an error of a library, or [IndexError] at a table
    without frame; nothing else. *)
Lemma loop_raises_split i tables sheets e :
  loop_raises i tables sheets e
  <-> (exists le, e = Raised le /\ loop_library_raises i tables sheets le)
      \/ (e = IndexError /\ loop_no_frame i tables sheets).
Proof.
  split.
  - induction 1 as [i table rest sheets e Hread
                   | i table rest sheets Hread
                   | i table rest sheets df more e Hread Hto
                   | i table rest sheets df more e Hread Hto _ IH].
    + left. eexists. split; [reflexivity|]. now apply library_read_html_raises.
    + right. split; [reflexivity|]. now apply no_frame_here.
    + left. eexists. split; [reflexivity|]. eapply library_to_excel_raises; eassumption.
    + destruct IH as [(le & -> & H) | (-> & H)].
      * left. eexists. split; [reflexivity|]. eapply library_later_raises; eassumption.
      * right. split; [reflexivity|]. eapply no_frame_later; eassumption.
  - intros [(le & -> & H) | (-> & H)].
    + induction H as [i table rest sheets e Hread
                     | i table rest sheets df more e Hread Hto
                     | i table rest sheets df more e Hread Hto _ IH].
      * now apply read_html_raises.
      * eapply to_excel_raises; eassumption.
      * eapply later_raises; eassumption.
    + induction H as [i table rest sheets Hread
                     | i table rest sheets df more Hread Hto _ IH].
      * now apply subscript_raises.
      * eapply later_raises; eassumption.
Qed.

Lemma operation_raises_split html now e :
  operation_raises html now e
  <-> (exists le, e = Raised le /\ library_raises html now le)
      \/ (e = IndexError /\ table_without_frame html).
Proof.
  split.
  - intros [e' Hsoup | soup e' Hsoup Hwriter | soup e' Hsoup Hwriter Hloop
           | soup sheets e' Hsoup Hwriter Hloop Hbytes].
    + left. eexists. split; [reflexivity|]. now apply library_BeautifulSoup_raises.
    + left. eexists. split; [reflexivity|]. eapply library_ExcelWriter_raises; eassumption.
    + apply loop_raises_split in Hloop as [(le & -> & H) | (-> & H)].
      * left. eexists. split; [reflexivity|]. eapply library_loop_raises; eassumption.
      * right. split; [reflexivity|]. exists soup. auto.
    + left. eexists. split; [reflexivity|]. eapply library_close_raises; eassumption.
  - intros [(le & -> & H) | (-> & soup & Hsoup & Hwriter & H)].
    + destruct H as [e' Hsoup | soup e' Hsoup Hwriter | soup e' Hsoup Hwriter Hloop
                    | soup sheets e' Hsoup Hwriter Hloop Hbytes].
      * now apply BeautifulSoup_raises.
      * eapply ExcelWriter_raises; eassumption.
      * eapply loop_operation_raises; [eassumption..|].
        apply loop_raises_split. left. eauto.
      * eapply close_raises; eassumption.
    + eapply loop_operation_raises; [eassumption..|].
      apply loop_raises_split. right. auto.
Qed.

Lemma save_to_excel_unfold html now fs :
  save_to_excel html now fs
  = match BeautifulSoup html "html.parser" with
    | inl e => (inl (Raised e), fs)
    | inr soup =>
        match ExcelWriter_error "output.xlsx" "xlsxwriter" with
        | Some e => (inl (Raised e), fs)
        | None =>
            match write_tables 0 (find_all soup "table")
                    {| w_path := "output.xlsx"; w_engine := "xlsxwriter"; w_sheets := [] |}
                    now (<["output.xlsx" := []]> fs) with
            | (inl e, fs1) => (inl e, fs1)
            | (inr w, fs1) =>
                match workbook_bytes (w_sheets w) now with
                | inl e => (inl (Raised e), fs1)
                | inr bytes => read_file "output.xlsx" now (<[w_path w := bytes]> fs1)
                end
            end
        end
    end.
Proof.
  unfold save_to_excel, ExcelWriter, close, clock, write_file, call, check;
    unfold bind, ret, raise.
  destruct (BeautifulSoup html "html.parser") as [e|soup]; [reflexivity|].
  destruct (ExcelWriter_error "output.xlsx" "xlsxwriter"); [reflexivity|].
  destruct (write_tables 0 _ _ now _) as [[e|w] fs1]; [reflexivity|].
  destruct (workbook_bytes (w_sheets w) now) as [e|bytes]; [reflexivity|].
  destruct (read_file "output.xlsx" now (<[w_path w:=bytes]> fs1)) as [[e|b] fs2];
    reflexivity.
Qed.

Lemma save_to_excel_returns html soup sheets bytes now fs :
  BeautifulSoup html "html.parser" = inr soup ->
  ExcelWriter_error "output.xlsx" "xlsxwriter" = None ->
  loop_returns 0 (find_all soup "table") [] sheets ->
  workbook_bytes sheets now = inr bytes ->
  save_to_excel html now fs = (inr bytes, <["output.xlsx" := bytes]> fs).
Proof.
  intros Hsoup Hwriter Hloop Hbytes.
  rewrite save_to_excel_unfold, Hsoup, Hwriter.
  rewrite (write_tables_returns _ _ _ _ Hloop) by reflexivity.
  cbn [with_sheets w_sheets w_path]. rewrite Hbytes.
  unfold read_file. rewrite lookup_insert_eq. now rewrite insert_insert_eq.
Qed.

(** When an operation raises, so does the call; the file [output.xlsx] is
    untouched if the writer was not made, and empty otherwise. *)
Lemma save_to_excel_raises html now e fs :
  operation_raises html now e ->
  fst (save_to_excel html now fs) = inl e
  /\ (snd (save_to_excel html now fs) = fs
      \/ snd (save_to_excel html now fs) = <["output.xlsx" := []]> fs).
Proof.
  intros [e' Hsoup | soup e' Hsoup Hwriter | soup e' Hsoup Hwriter Hloop
         | soup sheets e' Hsoup Hwriter Hloop Hbytes];
    rewrite save_to_excel_unfold, Hsoup; [auto|..];
    rewrite Hwriter; [auto|..].
  - rewrite (write_tables_raises _ _ _ _ Hloop) by reflexivity. auto.
  - rewrite (write_tables_returns _ _ _ _ Hloop) by reflexivity.
    cbn [with_sheets w_sheets]. rewrite Hbytes. auto.
Qed.

(** Either every operation returns and the file is saved and read back, or
    one of them raises. *)
Lemma save_to_excel_cases html now :
  (exists bytes, forall fs,
      save_to_excel html now fs = (inr bytes, <["output.xlsx" := bytes]> fs))
  \/ (exists e, operation_raises html now e).
Proof.
  destruct (BeautifulSoup html "html.parser") as [e|soup] eqn:Hsoup;
    [right; eexists; eapply BeautifulSoup_raises; eassumption|].
  destruct (ExcelWriter_error "output.xlsx" "xlsxwriter") as [e|] eqn:Hwriter;
    [right; eexists; eapply ExcelWriter_raises; eassumption|].
  destruct (write_tables_cases (find_all soup "table") 0
              {| w_path := "output.xlsx"; w_engine := "xlsxwriter"; w_sheets := [] |})
    as [[sheets Hloop] | [e Hloop]]; cbn in Hloop;
    [|right; eexists; eapply loop_operation_raises; eassumption].
  destruct (workbook_bytes sheets now) as [e|bytes] eqn:Hbytes;
    [right; eexists; eapply close_raises; eassumption|].
  left. exists bytes. intros fs. eapply save_to_excel_returns; eassumption.
Qed.

Lemma write_tables_fs i tables w now fs : snd (write_tables i tables w now fs) = fs.
Proof.
  destruct (write_tables_cases tables i w) as [[sheets' H] | [e H]].
  - now rewrite (write_tables_returns _ _ _ _ H) by reflexivity.
  - now rewrite (write_tables_raises _ _ _ _ H) by reflexivity.
Qed.

(** What a call leaves under [output.xlsx] and elsewhere. *)
Lemma save_to_excel_files html now fs :
  (exists bytes,
      fst (save_to_excel html now fs) = inr bytes
      /\ snd (save_to_excel html now fs) = <["output.xlsx" := bytes]> fs)
  \/ (exists e,
        fst (save_to_excel html now fs) = inl e
        /\ (snd (save_to_excel html now fs) = fs
            \/ snd (save_to_excel html now fs) = <["output.xlsx" := []]> fs)).
Proof.
  destruct (save_to_excel_cases html now) as [[bytes H] | [e H]].
  - left. exists bytes. now rewrite H.
  - right. exists e. now apply save_to_excel_raises.
Qed.

(** C5 (as amended): when no operation raises, that is, every library call
    returns and [read_html] gives at least one frame for each table,
    [save_to_excel] hands each of the n tables [find_all] returns, in document
    order, to [read_html], writes the first frame of each as one sheet, the
    sheets being named [Table_1] to [Table_n], saves that workbook as
    [output.xlsx] and returns the bytes of the file just written. *)
Theorem save_to_excel_one_sheet_per_table html soup dfs bytes now fs :
  BeautifulSoup html "html.parser" = inr soup ->
  ExcelWriter_error "output.xlsx" "xlsxwriter" = None ->
  Forall2 (fun table df => exists more, read_html (tag_str table) = inr (df :: more))
    (find_all soup "table") dfs ->
  to_excel_accepts 0 dfs [] ->
  workbook_bytes (sheets_from 0 dfs) now = inr bytes ->
  save_to_excel html now fs = (inr bytes, <["output.xlsx" := bytes]> fs)
  /\ snd (save_to_excel html now fs) !! "output.xlsx" = Some bytes
  /\ map fst (sheets_from 0 dfs)
     = map (fun k => "Table_" ++ PyStr.of_nat k)
         (seq 1 (length (find_all soup "table")))
  /\ map snd (sheets_from 0 dfs) = dfs.
Proof.
  intros Hsoup Hwriter Hread Hto Hbytes.
  assert (Hrun : save_to_excel html now fs = (inr bytes, <["output.xlsx" := bytes]> fs)).
  { eapply save_to_excel_returns; try eassumption.
    exact (loop_returns_sheets _ _ Hread 0 [] Hto). }
  split; [exact Hrun|]. rewrite Hrun. split; [apply lookup_insert_eq|].
  split; [|apply sheets_from_frames].
  rewrite sheets_from_names. now rewrite (Forall2_length _ _ _ Hread).
Qed.

(** C6 (as amended): [save_to_excel] raises exactly when a call into a
    library raises (parsing the markup, making the writer, reading a table,
    writing a sheet, saving the workbook), and then it raises that library's
    error as it is, or when [read_html] returns an empty list for a table the
    loop reaches, and then it raises [IndexError], the error of the subscript;
    when neither happens it returns. It raises nothing else. *)
Theorem save_to_excel_raises_iff html now fs e :
  (fst (save_to_excel html now fs) = inl e
   <-> (exists le, e = Raised le /\ library_raises html now le)
       \/ (e = IndexError /\ table_without_frame html))
  /\ ((forall le, ~ library_raises html now le) ->
      ~ table_without_frame html ->
      exists bytes, fst (save_to_excel html now fs) = inr bytes).
Proof.
  split; [split|].
  - intros Hrun. apply operation_raises_split.
    destruct (save_to_excel_cases html now) as [[bytes H] | [e' H]].
    + rewrite H in Hrun. discriminate.
    + rewrite (proj1 (save_to_excel_raises _ _ _ fs H)) in Hrun.
      now inversion Hrun; subst.
  - intros H%operation_raises_split. now apply save_to_excel_raises.
  - intros Hlib Hframe. destruct (save_to_excel_cases html now) as [[bytes H] | [e' H]].
    + exists bytes. now rewrite H.
    + apply operation_raises_split in H as [(le & _ & H) | (_ & H)].
      * now apply Hlib in H.
      * now apply Hframe in H.
Qed.


End SaveToExcelProperties.

Lemma save_to_excel_one_sheet_per_table_witness :
  save_to_excel (L := toy_libraries) two_tables 7 ∅
  = (inr (toy_workbook [("Table_1", table_a); ("Table_2", table_b)] 7),
     <["output.xlsx" := toy_workbook [("Table_1", table_a); ("Table_2", table_b)] 7]> ∅)
  /\ snd (save_to_excel (L := toy_libraries) two_tables 7 ∅) !! "output.xlsx"
     = Some (toy_workbook [("Table_1", table_a); ("Table_2", table_b)] 7)
  /\ map fst (sheets_from (L := toy_libraries) 0 [table_a; table_b])
     = ["Table_1"; "Table_2"]
  /\ map snd (sheets_from (L := toy_libraries) 0 [table_a; table_b])
     = [table_a; table_b].
Proof.
  apply (save_to_excel_one_sheet_per_table (L := toy_libraries)
           two_tables [table_a; table_b] [table_a; table_b]).
  - reflexivity.
  - reflexivity.
  - repeat constructor; exists []; reflexivity.
  - simpl. auto.
  - reflexivity.
Defined.

(** C5 (as stated) fails: on markup with one table, a table without rows, the
    call raises what [read_html] raises; no sheet is written and nothing is
    returned. *)
Lemma save_to_excel_raises_on_empty_table :
  @find_all toy_libraries (String.words empty_table) "table" = [empty_table]
  /\ fst (save_to_excel (L := toy_libraries) empty_table 7 ∅)
     = inl (@Raised toy_libraries "No tables found")
  /\ forall bytes, fst (save_to_excel (L := toy_libraries) empty_table 7 ∅) <> inr bytes.
Proof.
  split; [reflexivity|]. split; [reflexivity|]. intros bytes. discriminate.
Qed.

Lemma save_to_excel_raises_iff_witness :
  library_raises (L := lax_libraries) (table_a ++ " " ++ empty_table) 7 "No tables found"
  /\ table_without_frame (L := lax_libraries) (table_a ++ " " ++ caption_table)
  /\ (exists bytes, fst (save_to_excel (L := lax_libraries) two_tables 7 ∅) = inr bytes).
Proof.
  pose proof (proj1 (save_to_excel_raises_iff (L := lax_libraries)
                       (table_a ++ " " ++ empty_table) 7 ∅
                       (@Raised lax_libraries "No tables found"))) as Hlib.
  pose proof (proj1 (save_to_excel_raises_iff (L := lax_libraries)
                       (table_a ++ " " ++ caption_table) 7 ∅ IndexError)) as Hframe.
  split; [|split].
  - destruct (proj1 Hlib eq_refl) as [(le & Heq & H) | (Heq & _)];
      [now inversion Heq; subst | discriminate Heq].
  - destruct (proj1 Hframe eq_refl) as [(le & Heq & _) | (_ & H)];
      [discriminate Heq | exact H].
  - apply (save_to_excel_raises_iff (L := lax_libraries) two_tables 7 ∅ IndexError).
    + intros le H.
      assert (Hrun : fst (save_to_excel (L := lax_libraries) two_tables 7 ∅)
                     = inl (Raised le))
        by (apply (save_to_excel_raises_iff (L := lax_libraries)); left; eauto).
      discriminate Hrun.
    + intros H.
      assert (Hrun : fst (save_to_excel (L := lax_libraries) two_tables 7 ∅)
                     = inl IndexError)
        by (apply (save_to_excel_raises_iff (L := lax_libraries)); right; auto).
      discriminate Hrun.
Defined.

(** C6 (as stated) fails: with a table that has a caption and no rows, every
    call into the libraries returns (the markup is parsed, the writer is
    made, [read_html] returns an empty list), no library operation raises,
    and the call raises [IndexError]. *)
Lemma save_to_excel_raises_without_library_error :
  @BeautifulSoup lax_libraries caption_table "html.parser" = inr [caption_table]
  /\ @find_all lax_libraries [caption_table] "table" = [caption_table]
  /\ @ExcelWriter_error lax_libraries "output.xlsx" "xlsxwriter" = None
  /\ @read_html lax_libraries (@tag_str lax_libraries caption_table) = inr []
  /\ (forall now le, ~ library_raises (L := lax_libraries) caption_table now le)
  /\ forall now fs, fst (save_to_excel (L := lax_libraries) caption_table now fs)
                    = inl IndexError.
Proof.
  repeat (split; [reflexivity|]). split.
  - intros now le H.
    destruct H as [e Hsoup | soup e Hsoup Hwriter | soup e Hsoup Hwriter Hloop
                  | soup sheets e Hsoup Hwriter Hloop Hbytes];
      try discriminate;
      injection Hsoup as <-; cbn in Hloop; inversion Hloop; subst;
      match goal with
      | Hread : read_html _ = _ |- _ => vm_compute in Hread; discriminate Hread
      end.
  - intros now fs. reflexivity.
Qed.



(** * Further properties of the code *)

(** ** [get_all_kernel_functions]: keys and lookups *)

Lemma In_getmembers_isfunction (cls : PyClass) (name : string) (f : PyFunction) :
  In (name, f) (getmembers_isfunction cls) <-> In (name, Function f) (namespace cls).
Proof.
  unfold getmembers_isfunction.
  assert (Homap : In (name, f) (omap as_function (namespace cls))
                  <-> In (name, Function f) (namespace cls)).
  { induction (namespace cls) as [|[k o] l IH]; [simpl; tauto|].
    destruct o as [g| |]; cbn; rewrite IH.
    - split; (intros [[= <- <-] | H]; [now left | now right]).
    - split; [now right | now intros [[=] | H]].
    - split; [now right | now intros [[=] | H]]. }
  rewrite <- Homap.
  assert (Hperm := sort_pairs_perm (omap as_function (namespace cls))).
  split; apply Permutation_in; [exact Hperm | now symmetry].
Qed.

Lemma is_selected_name (member : string * PyFunction) :
  is_selected member = true ->
  PyStr.startswith (fst member) "_" = false
  /\ fst member <> "get_all_kernel_functions".
Proof.
  unfold is_selected. intros [[H1 H2]%andb_prop _]%andb_prop.
  apply negb_true_iff in H1, H2. split; [exact H1|]. now apply String.eqb_neq.
Qed.

(** The keys of the dictionary the loop builds, whatever the members. *)
Lemma In_keys_collect_kernel_functions (members : list (string * PyFunction)) :
  forall (kernel_functions : dict PyFunction) (k : string),
    In k (keys (collect_kernel_functions members kernel_functions))
    <-> In k (keys kernel_functions)
        \/ exists method, In (k, method) members /\ is_selected (k, method) = true.
Proof.
  induction members as [|[name method] members IH]; intros acc k;
    cbn [collect_kernel_functions].
  - split; [auto | intros [H | (m & [] & _)]; exact H].
  - assert (Hskip :
      is_selected (name, method) = false ->
      (In k (keys acc) \/ (exists m, In (k, m) members /\ is_selected (k, m) = true))
      <-> (In k (keys acc)
           \/ exists m, In (k, m) ((name, method) :: members) /\ is_selected (k, m) = true)).
    { intros Hsel. split; intros [H | (m & Hin & Hm)]; auto.
      - right. exists m. split; [now right | exact Hm].
      - destruct Hin as [[= <- <-] | Hin]; [congruence|]. right. eauto. }
    unfold is_selected in Hskip at 1. cbn [fst snd] in Hskip.
    destruct (PyStr.startswith name "_") eqn:E1; cbn [negb andb orb] in *;
      [rewrite IH; now apply Hskip|].
    destruct (String.eqb name "get_all_kernel_functions") eqn:E2;
      cbn [negb andb orb] in *; [rewrite IH; now apply Hskip|].
    destruct (bool_decide (is_Some (f_kernel_function method))
              || PyStr.contains "kernel_function" (str_annotations (f_annotations method)))
      eqn:Hsel; [|rewrite IH; now apply Hskip].
    rewrite IH, In_keys_dict_set. split.
    + intros [[-> | H] | (m & Hin & Hm)]; auto.
      * right. exists method. split; [now left|].
        unfold is_selected. cbn [fst snd]. now rewrite E1, E2.
      * right. exists m. split; [now right | exact Hm].
    + intros [H | (m & [[= <- <-] | Hin] & Hm)]; auto. right. eauto.
Qed.

Lemma dict_get_In {V} (d : dict V) (k : string) (v : V) :
  List.NoDup (keys d) -> dict_get k d = Some v <-> In (k, v) d.
Proof.
  induction d as [|[k' v'] d IH]; simpl; intros Hnd; [split; [discriminate | tauto]|].
  inversion Hnd as [|? ? Hnotin Hnd']; subst.
  destruct (String.eqb_spec k' k) as [->|Hne].
  - split; [intros [= ->]; now left|].
    intros [[= ->] | Hin]; [reflexivity|].
    exfalso. apply Hnotin. unfold keys. now apply (in_map fst) in Hin.
  - rewrite (IH Hnd'). split; [now right | now intros [[= -> _] | H]].
Qed.

Lemma NoDup_keys_filter {V} (f : string * V -> bool) (d : dict V) :
  List.NoDup (keys d) -> List.NoDup (keys (List.filter f d)).
Proof.
  induction d as [|kv d IH]; simpl; intros Hnd; [constructor|].
  inversion Hnd as [|? ? Hnotin Hnd']; subst.
  destruct (f kv); simpl; [|now apply IH].
  constructor; [|now apply IH].
  intros (kv' & Hk & [Hin _]%List.filter_In)%in_map_iff.
  apply Hnotin. rewrite <- Hk. now apply in_map.
Qed.

Lemma NoDup_keys_getmembers (cls : PyClass) :
  List.NoDup (keys (namespace cls)) -> List.NoDup (keys (getmembers_isfunction cls)).
Proof.
  intros Hnd. eapply Permutation_NoDup; [|apply NoDup_omap_as_function; exact Hnd].
  apply Permutation_map. symmetry. apply sort_pairs_perm.
Qed.

(** X1: looking a name up in the dictionary [get_all_kernel_functions] returns
    gives a function exactly when the class has that function under that
    name and the loop selects it; any other name is missing. *)
Theorem get_all_kernel_functions_lookup (cls : PyClass) (name : string)
    (method : PyFunction) :
  List.NoDup (keys (namespace cls)) ->
  (dict_get name (get_all_kernel_functions cls) = Some method
   <-> In (name, Function method) (namespace cls) /\ is_selected (name, method) = true)
  /\ (dict_get name (get_all_kernel_functions cls) = None
      <-> forall f, In (name, Function f) (namespace cls) -> is_selected (name, f) = false).
Proof.
  intros Hnd. rewrite get_all_kernel_functions_spec by exact Hnd.
  assert (Hkeys : List.NoDup (keys (List.filter is_selected (getmembers_isfunction cls))))
    by now apply NoDup_keys_filter, NoDup_keys_getmembers.
  assert (Hsome : forall f,
    dict_get name (List.filter is_selected (getmembers_isfunction cls)) = Some f
    <-> In (name, Function f) (namespace cls) /\ is_selected (name, f) = true).
  { intros f. rewrite (dict_get_In _ _ _ Hkeys), List.filter_In.
    now rewrite In_getmembers_isfunction. }
  split; [apply Hsome|].
  destruct (dict_get name _) as [g|] eqn:E.
  - destruct (proj1 (Hsome g) eq_refl) as [Hin Hsel]. split; [discriminate|].
    intros H. rewrite (H g Hin) in Hsel. discriminate.
  - split; [|reflexivity]. intros _ f Hin.
    destruct (is_selected (name, f)) eqn:Hsel; [|reflexivity].
    assert (H : None = Some f) by (apply Hsome; auto). discriminate.
Qed.

Lemma get_all_kernel_functions_lookup_witness :
  (dict_get "save_to_excel" (get_all_kernel_functions HrDocumentTools)
   = Some (save_to_excel_function stores_True)
   <-> In ("save_to_excel",
           Function (save_to_excel_function stores_True))
          (namespace HrDocumentTools)
       /\ is_selected ("save_to_excel",
                       save_to_excel_function stores_True)
          = true)
  /\ (dict_get "save_to_excel" (get_all_kernel_functions HrDocumentTools) = None
      <-> forall f, In ("save_to_excel", Function f) (namespace HrDocumentTools) ->
                    is_selected ("save_to_excel", f) = false).
Proof.
  apply (get_all_kernel_functions_lookup HrDocumentTools).
  apply NoDup_ListNoDup.
  apply (bool_decide_eq_true_1 (NoDup (keys (namespace HrDocumentTools)))).
  vm_compute. reflexivity.
Defined.

(** X2: whatever the class, no key of the dictionary starts with an underscore
    and none is [get_all_kernel_functions]. *)
Theorem get_all_kernel_functions_keys_public (cls : PyClass) (name : string) :
  In name (keys (get_all_kernel_functions cls)) ->
  PyStr.startswith name "_" = false /\ name <> "get_all_kernel_functions".
Proof.
  unfold get_all_kernel_functions.
  intros [[] | (method & _ & Hsel)]%In_keys_collect_kernel_functions.
  exact (is_selected_name _ Hsel).
Qed.

Lemma get_all_kernel_functions_keys_public_witness :
  In "helper" (keys (get_all_kernel_functions
                       (SubclassWithHelper "Hr_Agent" stores_True)))
  /\ PyStr.startswith "helper" "_" = false
  /\ "helper" <> "get_all_kernel_functions".
Proof.
  split; [vm_compute; auto|].
  apply (get_all_kernel_functions_keys_public
           (SubclassWithHelper "Hr_Agent" stores_True)).
  vm_compute. auto.
Defined.

(** X3: every function the manifest lists, unless it is called
    [get_all_kernel_functions], is a key of the dictionary
    [get_all_kernel_functions] returns for the same class. *)
Theorem manifest_functions_are_kernel_functions (cls : PyClass)
    (tools_list : list (dict string)) (name : string) :
  tools_list_of cls = Some tools_list ->
  In (Some name) (map (dict_get "function") tools_list) ->
  name <> "get_all_kernel_functions" ->
  In name (keys (get_all_kernel_functions cls)).
Proof.
  intros Htl Hin Hname. rewrite (tools_list_function_names _ _ Htl) in Hin.
  apply in_map_iff in Hin as (name' & [= ->] & Hin).
  apply in_map_iff in Hin as ([k method] & Hk & [Hin Htool]%List.filter_In).
  cbn in Hk. subst k.
  apply In_keys_collect_kernel_functions. right. exists method. split; [exact Hin|].
  unfold is_tool in Htool. cbn [fst snd] in Htool.
  apply andb_prop in Htool as [[H1 _]%andb_prop H3].
  unfold is_selected. cbn [fst snd]. rewrite H1, H3.
  apply String.eqb_neq in Hname. now rewrite Hname.
Qed.

Lemma manifest_functions_are_kernel_functions_witness :
  exists tools_list,
    tools_list_of HrDocumentTools = Some tools_list
    /\ In (Some "save_to_excel") (map (dict_get "function") tools_list)
    /\ In "save_to_excel" (keys (get_all_kernel_functions HrDocumentTools)).
Proof.
  eexists. split; [vm_compute; reflexivity|]. split; [vm_compute; auto|].
  eapply (manifest_functions_are_kernel_functions HrDocumentTools _ "save_to_excel").
  - vm_compute. reflexivity.
  - vm_compute. auto.
  - discriminate.
Defined.

(** X4: the dictionary lists its keys in ascending order of name, each once. *)
Theorem get_all_kernel_functions_keys_sorted (cls : PyClass) :
  List.NoDup (keys (namespace cls)) ->
  StronglySorted PyStr.le (keys (get_all_kernel_functions cls))
  /\ List.NoDup (keys (get_all_kernel_functions cls)).
Proof.
  intros Hnd. rewrite get_all_kernel_functions_spec by exact Hnd. split.
  - apply sorted_names, filter_sorted, getmembers_isfunction_sorted.
  - now apply NoDup_keys_filter, NoDup_keys_getmembers.
Qed.

Lemma get_all_kernel_functions_keys_sorted_witness :
  StronglySorted PyStr.le (keys (get_all_kernel_functions HrDocumentTools))
  /\ List.NoDup (keys (get_all_kernel_functions HrDocumentTools)).
Proof.
  apply (get_all_kernel_functions_keys_sorted HrDocumentTools).
  apply NoDup_ListNoDup.
  apply (bool_decide_eq_true_1 (NoDup (keys (namespace HrDocumentTools)))).
  vm_compute. reflexivity.
Defined.

(** ** [generate_tools_json_doc]: edge cases, errors and the entries *)

Lemma filter_nil_iff {A} (f : A -> bool) (l : list A) :
  (forall x, In x l -> f x = false) -> List.filter f l = [].
Proof.
  induction l as [|x l IH]; simpl; intros H; [reflexivity|].
  rewrite (H x) by now left. apply IH. intros y Hy. apply H. now right.
Qed.

(** X5: a class none of whose functions is a tool gets the manifest [[]]; the
    type hints of its functions are never asked for, so the call cannot
    raise. *)
Theorem manifest_of_class_without_tools (cls : PyClass) :
  (forall name f, In (name, Function f) (namespace cls) -> is_tool (name, f) = false) ->
  generate_tools_json_doc cls = Some "[]".
Proof.
  intros H. unfold generate_tools_json_doc, tools_list_of.
  rewrite collect_tools_spec, filter_nil_iff; [reflexivity|].
  intros [name f] Hin. apply H. now apply In_getmembers_isfunction.
Qed.

Lemma manifest_of_class_without_tools_witness :
  generate_tools_json_doc PlainClass = Some "[]".
Proof.
  apply manifest_of_class_without_tools.
  intros name f [[= <- <-] | [[=] | []]]. reflexivity.
Defined.

(** X6: [generate_tools_json_doc] raises exactly when [get_type_hints] raises
    for one of the tools; what it does for the other functions of the class
    does not matter. *)
Theorem generate_tools_json_doc_raises_iff (cls : PyClass) :
  generate_tools_json_doc cls = None
  <-> exists name f,
        In (name, Function f) (namespace cls)
        /\ is_tool (name, f) = true
        /\ f_type_hints f = None.
Proof.
  unfold generate_tools_json_doc, tools_list_of. rewrite collect_tools_spec.
  destruct (mapM _ _) as [entries|] eqn:E; simpl.
  - split; [discriminate|]. intros (name & f & Hin & Htool & Hhints).
    apply mapM_Some_1 in E.
    assert (Hmem : In (name, f) (List.filter is_tool (getmembers_isfunction cls)))
      by (apply List.filter_In; split; [now apply In_getmembers_isfunction | exact Htool]).
    exfalso. clear -E Hmem Hhints. induction E as [|member entry l k He _ IH]; [destruct Hmem|].
    destruct Hmem as [-> | Hmem]; [|now apply IH].
    unfold tool_entry in He. cbn [fst snd] in He. rewrite Hhints in He. discriminate.
  - split; [|reflexivity]. intros _.
    apply mapM_None_1, List.Exists_exists in E as ([name f] & Hin & Hnone).
    apply List.filter_In in Hin as [Hin Htool]. exists name, f.
    split; [now apply In_getmembers_isfunction|]. split; [exact Htool|].
    unfold tool_entry in Hnone. cbn [fst snd] in Hnone.
    now destruct (f_type_hints f).
Qed.

Lemma generate_tools_json_doc_raises_iff_witness :
  generate_tools_json_doc UnresolvedClass = None
  /\ In ("lookup", Function unresolved_function) (namespace UnresolvedClass)
  /\ is_tool ("lookup", unresolved_function) = true
  /\ f_type_hints unresolved_function = None.
Proof.
  split; [|repeat split; now left].
  apply (generate_tools_json_doc_raises_iff UnresolvedClass).
  exists "lookup", unresolved_function. repeat split. now left.
Defined.

Lemma replace_not_In (old new : ascii) (s : string) :
  old <> new -> ~ In old (list_ascii_of_string (PyStr.replace old new s)).
Proof.
  intros Hne. induction s as [|c s IH]; simpl; [tauto|].
  intros [H | H]; [|exact (IH H)].
  destruct (Ascii.eqb_spec c old); congruence.
Qed.

(** X7: the [arguments] text of an entry never contains a double quote. *)
Theorem arguments_without_double_quote (cls : PyClass) (name : string)
    (method : PyFunction) (entry : dict string) :
  tool_entry cls name method = Some entry ->
  exists arguments,
    dict_get "arguments" entry = Some arguments
    /\ ~ In Json.quote (list_ascii_of_string arguments).
Proof.
  intros (type_hints & _ & ->)%tool_entry_Some. eexists. split; [reflexivity|].
  apply replace_not_In. discriminate.
Qed.

Lemma arguments_without_double_quote_witness :
  exists entry arguments,
    tool_entry HrDocumentTools "save_to_excel"
      (save_to_excel_function stores_True) = Some entry
    /\ dict_get "arguments" entry = Some arguments
    /\ ~ In Json.quote (list_ascii_of_string arguments).
Proof.
  eexists.
  destruct (arguments_without_double_quote HrDocumentTools "save_to_excel"
              (save_to_excel_function stores_True) _ eq_refl)
    as (arguments & Hget & Hno).
  exists arguments. split; [reflexivity|]. split; [exact Hget | exact Hno].
Defined.

Lemma collect_args_no_argument (type_hints : gmap string PyType) (parameters : list string) :
  forall args_dict,
    Forall (fun p => is_argument p = false) parameters ->
    collect_args type_hints parameters args_dict = args_dict.
Proof.
  induction parameters as [|p ps IH]; intros args_dict H; simpl; [reflexivity|].
  inversion H as [|? ? Hp Hps]; subst.
  rewrite is_argument_false, Hp. simpl. now apply IH.
Qed.

(** X8: for a method that takes no parameter other than [cls] or [self], the
    [arguments] text is [{}]. *)
Theorem arguments_of_method_without_arguments (cls : PyClass) (name : string)
    (method : PyFunction) (entry : dict string) :
  Forall (fun p => is_argument p = false) (f_parameters method) ->
  tool_entry cls name method = Some entry ->
  dict_get "arguments" entry = Some "{}".
Proof.
  intros Hparams (type_hints & _ & ->)%tool_entry_Some.
  now rewrite collect_args_no_argument.
Qed.

Lemma arguments_of_method_without_arguments_witness :
  exists entry,
    tool_entry HrDocumentTools "reset" reset_function = Some entry
    /\ dict_get "arguments" entry = Some "{}".
Proof.
  eexists. split; [reflexivity|].
  apply (arguments_of_method_without_arguments HrDocumentTools "reset" reset_function);
    [|reflexivity].
  repeat constructor.
Defined.

(** X9: for any class whose functions have pairwise different parameter names,
    the manifest has one entry per tool, in the order of the names; each
    entry carries the name of its function, and its arguments text is what
    [json.dumps] writes (with single quotes for the double ones) for the
    mapping keyed by the function's parameters other than [cls] and [self],
    in their order; it reads back as that mapping where no single quote is
    involved. *)
Theorem manifest_entries_describe_tools (cls : PyClass) (tools_list : list (dict string)) :
  (forall name f, In (name, Function f) (namespace cls) -> List.NoDup (f_parameters f)) ->
  tools_list_of cls = Some tools_list ->
  Forall2 describes (List.filter is_tool (getmembers_isfunction cls)) tools_list
  /\ length tools_list = length (List.filter is_tool (getmembers_isfunction cls)).
Proof.
  intros Hparams Htl. apply tools_list_of_Forall2 in Htl.
  assert (H : Forall2 describes (List.filter is_tool (getmembers_isfunction cls)) tools_list).
  { assert (Hnd : Forall (fun member => List.NoDup (f_parameters (snd member)))
                    (List.filter is_tool (getmembers_isfunction cls))).
    { apply List.Forall_forall. intros [name f] [Hin _]%List.filter_In.
      apply (Hparams name). now apply In_getmembers_isfunction. }
    induction Htl as [|member entry members tools_list He _ IH]; constructor.
    - inversion Hnd as [|? ? Hmember _]; subst.
      apply tool_entry_arguments in He as (arguments & args & -> & Htext & _ & _ & Hkeys).
      split; [reflexivity|]. exists arguments, args. auto.
    - apply IH. now inversion Hnd. }
  split; [exact H|]. symmetry. exact (Forall2_length _ _ _ H).
Qed.

Lemma manifest_entries_describe_tools_witness :
  exists tools_list,
    tools_list_of HrDocumentTools = Some tools_list
    /\ Forall2 describes (List.filter is_tool (getmembers_isfunction HrDocumentTools))
         tools_list
    /\ length tools_list
       = length (List.filter is_tool (getmembers_isfunction HrDocumentTools)).
Proof.
  eexists. split; [vm_compute; reflexivity|].
  apply (manifest_entries_describe_tools HrDocumentTools).
  - intros name f Hin. simpl in Hin.
    repeat (destruct Hin as [Heq | Hin];
            [inversion Heq; subst; repeat constructor; simpl; tauto|]).
    destruct Hin.
  - vm_compute. reflexivity.
Defined.

Lemma map_inj_list {A B} (g : A -> B) (l1 l2 : list A) :
  (forall x y, g x = g y -> x = y) -> map g l1 = map g l2 -> l1 = l2.
Proof.
  intros Hg. revert l2. induction l1 as [|x l1 IH]; intros [|y l2] H;
    try discriminate; [reflexivity|].
  simpl in H. inversion H. f_equal; auto.
Qed.

Lemma json_of_tools_inj (l1 l2 : list (dict string)) :
  json_of_tools l1 = json_of_tools l2 -> l1 = l2.
Proof.
  unfold json_of_tools. intros [= H]. revert H. apply map_inj_list.
  unfold json_of_strings. intros d1 d2 [= H]. revert H. apply map_inj_list.
  intros [k1 v1] [k2 v2] [= -> ->]. reflexivity.
Qed.

Lemma dumps_inj (o : Json.options) (v1 v2 : Json.json) :
  Json.dumps o v1 = Json.dumps o v2 -> v1 = v2.
Proof.
  intros H. apply (f_equal Json.loads) in H. rewrite !loads_dumps in H.
  now injection H.
Qed.

(** X10: the manifest text determines the entries: two classes with the same
    manifest have the same list of entries, field for field. *)
Theorem manifest_determines_entries (cls1 cls2 : PyClass) (s : string) :
  generate_tools_json_doc cls1 = Some s ->
  generate_tools_json_doc cls2 = Some s ->
  tools_list_of cls1 = tools_list_of cls2.
Proof.
  intros (l1 & H1 & ->)%generate_tools_json_doc_Some
         (l2 & H2 & Heq)%generate_tools_json_doc_Some.
  rewrite H1, H2. f_equal. now apply dumps_inj, json_of_tools_inj in Heq.
Qed.

Lemma manifest_determines_entries_witness :
  exists s,
    generate_tools_json_doc HrDocumentTools = Some s
    /\ generate_tools_json_doc
         {| agent_name := "Hr_Agent"; namespace := rev (namespace HrDocumentTools) |}
       = Some s
    /\ tools_list_of HrDocumentTools
       = tools_list_of
           {| agent_name := "Hr_Agent"; namespace := rev (namespace HrDocumentTools) |}.
Proof.
  eexists. split; [vm_compute; reflexivity|]. split; [vm_compute; reflexivity|].
  eapply (manifest_determines_entries HrDocumentTools
            {| agent_name := "Hr_Agent"; namespace := rev (namespace HrDocumentTools) |});
    vm_compute; reflexivity.
Defined.

(** ** The argument records *)

Lemma title_char_underscore (b : bool) (c : ascii) :
  (if PyStr.isupper c || PyStr.islower c
   then (if b then PyStr.to_lower c else PyStr.to_upper c)
   else c) = "_"%char ->
  c = "_"%char.
Proof.
  destruct c as [b0 b1 b2 b3 b4 b5 b6 b7].
  destruct b, b0, b1, b2, b3, b4, b5, b6, b7; vm_compute; intros H;
    first [reflexivity | discriminate H].
Qed.

Lemma title_from_no_underscore (b : bool) (s : string) :
  ~ In "_"%char (list_ascii_of_string s) ->
  ~ In "_"%char (list_ascii_of_string (PyStr.title_from b s)).
Proof.
  revert b. induction s as [|c s IH]; intros b Hs; simpl; [tauto|].
  simpl in Hs.
  destruct (PyStr.isupper c || PyStr.islower c) eqn:E; simpl;
    intros [H | H].
  - apply Hs. left. apply (title_char_underscore b). now rewrite E.
  - apply (IH true); [tauto | exact H].
  - apply Hs. now left.
  - apply (IH false); [tauto | exact H].
Qed.

Lemma to_lower_idempotent (c : ascii) : PyStr.to_lower (PyStr.to_lower c) = PyStr.to_lower c.
Proof.
  destruct c as [b0 b1 b2 b3 b4 b5 b6 b7].
  destruct b0, b1, b2, b3, b4, b5, b6, b7; reflexivity.
Qed.

Lemma lower_idempotent (s : string) : PyStr.lower (PyStr.lower s) = PyStr.lower s.
Proof.
  induction s as [|c s IH]; simpl; [reflexivity|].
  now rewrite to_lower_idempotent, IH.
Qed.

Lemma param_type_of_lower (type_hints : gmap string PyType) (param_name : string) :
  PyStr.lower (param_type_of type_hints param_name) = param_type_of type_hints param_name.
Proof.
  unfold param_type_of.
  destruct (type_hints !! param_name) as [t|]; [|reflexivity].
  destruct (ty_name t); [apply lower_idempotent|].
  repeat (match goal with |- context [if ?b then _ else _] => destruct b end);
    reflexivity.
Qed.

(** The shape of one record of the arguments mapping. *)
Lemma argument_record_fields (type_hints : gmap string PyType) (param_name : string) :
  let title := PyStr.title (PyStr.replace "_" " " param_name) in
  let type := param_type_of type_hints param_name in
  ~ In "_"%char (list_ascii_of_string title) /\ PyStr.lower type = type.
Proof.
  cbv zeta. split.
  - apply title_from_no_underscore, replace_not_In. discriminate.
  - apply param_type_of_lower.
Qed.

(** X11: every record of the arguments mapping has the fields [description],
    [title] and [type], in this order; the description is the parameter name,
    the title contains no underscore, and the type is in lower case. *)
Theorem argument_records_shape (type_hints : gmap string PyType) (parameters : list string) :
  Forall (fun kv =>
            exists title type,
              snd kv = [("description", fst kv); ("title", title); ("type", type)]
              /\ ~ In "_"%char (list_ascii_of_string title)
              /\ PyStr.lower type = type)
    (collect_args type_hints parameters []).
Proof.
  generalize (@nil (string * dict string)) (@List.Forall_nil (string * dict string)
    (fun kv => exists title type,
       snd kv = [("description", fst kv); ("title", title); ("type", type)]
       /\ ~ In "_"%char (list_ascii_of_string title)
       /\ PyStr.lower type = type)).
  induction parameters as [|p ps IH]; intros args_dict H; simpl; [exact H|].
  destruct (String.eqb p "cls" || String.eqb p "self"); [now apply IH|].
  apply IH, Forall_dict_set; [|exact H].
  eexists _, _. split; [reflexivity|]. apply argument_record_fields.
Qed.

(** ** [save_to_excel]: what a call that returns has done, and calls in a row *)

Lemma to_uint_not_Nil (n : nat) : Nat.to_uint n <> Decimal.Nil.
Proof.
  intros H. assert (Hn : n = 0) by (rewrite <- (DecimalNat.Unsigned.of_to n), H; reflexivity).
  subst n. discriminate H.
Qed.

Lemma of_nat_inj (n m : nat) : PyStr.of_nat n = PyStr.of_nat m -> n = m.
Proof.
  unfold PyStr.of_nat. intros H.
  apply (f_equal NilZero.uint_of_string) in H.
  rewrite !NilZero.usu in H by apply to_uint_not_Nil.
  injection H as H. now apply DecimalNat.Unsigned.to_uint_inj.
Qed.

Section SaveToExcelCalls.
Context {L : Libraries}.
Implicit Types (fs : FS) (now : Time) (tables : list Tag) (dfs : list DataFrame).

Lemma sheet_name_of_inj (i j : nat) : sheet_name_of i = sheet_name_of j -> i = j.
Proof.
  unfold sheet_name_of. intros H. apply String.app_inj in H.
  apply of_nat_inj in H. lia.
Qed.

Lemma In_sheets_from_names (i : nat) dfs (name : string) :
  In name (map fst (sheets_from i dfs)) -> exists j, i <= j /\ name = sheet_name_of j.
Proof.
  revert i. induction dfs as [|df dfs IH]; intros i; simpl; [tauto|].
  intros [<- | H]; [eauto|]. apply IH in H as (j & Hj & ->). exists j. split; [lia | reflexivity].
Qed.

Lemma NoDup_sheets_from (i : nat) dfs : List.NoDup (map fst (sheets_from i dfs)).
Proof.
  revert i. induction dfs as [|df dfs IH]; intros i; simpl; constructor; [|apply IH].
  intros (j & Hj & Heq%sheet_name_of_inj)%In_sheets_from_names. lia.
Qed.

Lemma loop_returns_inv i tables sheets sheets' :
  loop_returns i tables sheets sheets' ->
  exists dfs,
    sheets' = (sheets ++ sheets_from i dfs)%list
    /\ Forall2 (fun table df => exists more, read_html (tag_str table) = inr (df :: more))
         tables dfs.
Proof.
  induction 1 as [i sheets | i table rest sheets df more sheets' Hread Hto _ IH].
  - exists []. split; [now rewrite app_nil_r | constructor].
  - destruct IH as (dfs & -> & Hall). exists (df :: dfs). split.
    + simpl. now rewrite <- app_assoc.
    + constructor; eauto.
Qed.

(** X12: when [save_to_excel] returns, the markup was parsed, the bytes are
    those of a workbook with one sheet per table, holding the first frame
    read from each table in order; the sheets are named [Table_1] to
    [Table_n], no two alike; and the only change to the files is that
    [output.xlsx] holds the returned bytes. *)
Theorem save_to_excel_returns_inv html now fs bytes fs' :
  save_to_excel html now fs = (inr bytes, fs') ->
  exists soup dfs,
    BeautifulSoup html "html.parser" = inr soup
    /\ Forall2 (fun table df => exists more, read_html (tag_str table) = inr (df :: more))
         (find_all soup "table") dfs
    /\ workbook_bytes (sheets_from 0 dfs) now = inr bytes
    /\ map fst (sheets_from 0 dfs)
       = map (fun k => "Table_" ++ PyStr.of_nat k)
           (seq 1 (length (find_all soup "table")))
    /\ List.NoDup (map fst (sheets_from 0 dfs))
    /\ fs' = <["output.xlsx" := bytes]> fs.
Proof.
  rewrite save_to_excel_unfold.
  destruct (BeautifulSoup html "html.parser") as [e|soup] eqn:Hsoup; [discriminate|].
  destruct (ExcelWriter_error "output.xlsx" "xlsxwriter") as [e|] eqn:Hwriter;
    [discriminate|].
  destruct (write_tables_cases (find_all soup "table") 0
              {| w_path := "output.xlsx"; w_engine := "xlsxwriter"; w_sheets := [] |})
    as [[sheets Hloop] | [e Hloop]]; cbn in Hloop.
  - rewrite (write_tables_returns _ _ _ _ Hloop) by reflexivity.
    cbn [with_sheets w_sheets w_path].
    destruct (workbook_bytes sheets now) as [e|bytes'] eqn:Hbytes; [discriminate|].
    unfold read_file. rewrite lookup_insert_eq, insert_insert_eq. intros [= <- <-].
    apply loop_returns_inv in Hloop as (dfs & -> & Hall). simpl in Hbytes.
    exists soup, dfs. repeat split; try assumption.
    + rewrite sheets_from_names. now rewrite (Forall2_length _ _ _ Hall).
    + apply NoDup_sheets_from.
  - rewrite (write_tables_raises _ _ _ _ Hloop) by reflexivity. discriminate.
Qed.

(** X14: the last call wins: when a call returns, an earlier call with other
    markup, whenever it was made and whether it returned or raised, has no
    effect on what it returns nor on the files it leaves; what the earlier
    call left under [output.xlsx] is gone. *)
Theorem save_to_excel_last_call_wins html_a html_b earlier now fs bytes :
  fst (save_to_excel html_b now fs) = inr bytes ->
  save_to_excel html_b now (snd (save_to_excel html_a earlier fs))
  = (inr bytes, <["output.xlsx" := bytes]> fs).
Proof.
  intros Hb. destruct (save_to_excel_cases html_b now) as [[bytes' H] | [e H]].
  - rewrite (H fs) in Hb. injection Hb as ->.
    rewrite H. f_equal.
    destruct (save_to_excel_files html_a earlier fs)
      as [(b & _ & ->) | (e & _ & [-> | ->])];
      [apply insert_insert_eq | reflexivity | apply insert_insert_eq].
  - rewrite (proj1 (save_to_excel_raises _ _ _ fs H)) in Hb. discriminate.
Qed.

(** X15: on markup without any table the call does not fail for want of
    tables: [read_html] and [to_excel] are not used; the writer is created and
    closed, and the file it saves with no sheet written to it is returned. *)
Theorem save_to_excel_without_tables html soup bytes now fs :
  BeautifulSoup html "html.parser" = inr soup ->
  find_all soup "table" = [] ->
  ExcelWriter_error "output.xlsx" "xlsxwriter" = None ->
  workbook_bytes [] now = inr bytes ->
  save_to_excel html now fs = (inr bytes, <["output.xlsx" := bytes]> fs).
Proof.
  intros Hsoup Htables Hwriter Hbytes.
  eapply save_to_excel_returns; try eassumption.
  rewrite Htables. constructor.
Qed.

Lemma loop_raises_after i tables dfs rest sheets e :
  Forall2 (fun table df => exists more, read_html (tag_str table) = inr (df :: more))
    tables dfs ->
  to_excel_accepts i dfs sheets ->
  loop_raises (i + length tables) rest (sheets ++ sheets_from i dfs)%list e ->
  loop_raises i (tables ++ rest)%list sheets e.
Proof.
  intros Hall. revert i sheets.
  induction Hall as [|table df tables dfs [more Hread] _ IH]; intros i sheets Hacc Hrest.
  - simpl in *. now rewrite Nat.add_0_r, app_nil_r in Hrest.
  - destruct Hacc as [Hto Hacc]. simpl. eapply later_raises; [exact Hread | exact Hto |].
    apply IH; [exact Hacc|]. simpl in Hrest.
    now rewrite <- app_assoc, Nat.add_succ_r in *.
Qed.

(** X16: the call stops at the first table that cannot be read: when the
    tables before it are read and written and [read_html] raises [e] for it,
    the call raises [e], whatever tables follow. *)
Theorem save_to_excel_first_unreadable_table html soup good bad rest dfs e now fs :
  BeautifulSoup html "html.parser" = inr soup ->
  find_all soup "table" = (good ++ bad :: rest)%list ->
  ExcelWriter_error "output.xlsx" "xlsxwriter" = None ->
  Forall2 (fun table df => exists more, read_html (tag_str table) = inr (df :: more))
    good dfs ->
  to_excel_accepts 0 dfs [] ->
  read_html (tag_str bad) = inl e ->
  fst (save_to_excel html now fs) = inl (Raised e).
Proof.
  intros Hsoup Htables Hwriter Hgood Hacc Hbad.
  apply save_to_excel_raises.
  eapply loop_operation_raises; [exact Hsoup | exact Hwriter |].
  rewrite Htables. eapply loop_raises_after; [exact Hgood | exact Hacc |].
  now apply read_html_raises.
Qed.

(** X17: when [read_html] returns an empty list for a table, the subscript
    raises [IndexError], and so does the call, whatever tables follow. *)
Theorem save_to_excel_table_without_frame html soup good bad rest dfs now fs :
  BeautifulSoup html "html.parser" = inr soup ->
  find_all soup "table" = (good ++ bad :: rest)%list ->
  ExcelWriter_error "output.xlsx" "xlsxwriter" = None ->
  Forall2 (fun table df => exists more, read_html (tag_str table) = inr (df :: more))
    good dfs ->
  to_excel_accepts 0 dfs [] ->
  read_html (tag_str bad) = inr [] ->
  fst (save_to_excel html now fs) = inl IndexError.
Proof.
  intros Hsoup Htables Hwriter Hgood Hacc Hbad.
  apply save_to_excel_raises.
  eapply loop_operation_raises; [exact Hsoup | exact Hwriter |].
  rewrite Htables. eapply loop_raises_after; [exact Hgood | exact Hacc |].
  now apply subscript_raises.
Qed.

End SaveToExcelCalls.

Lemma save_to_excel_returns_inv_witness :
  save_to_excel (L := toy_libraries) two_tables 7 ∅
  = (inr (toy_workbook [("Table_1", table_a); ("Table_2", table_b)] 7),
     <["output.xlsx" := toy_workbook [("Table_1", table_a); ("Table_2", table_b)] 7]> ∅)
  /\ exists soup dfs,
       @BeautifulSoup toy_libraries two_tables "html.parser" = inr soup
       /\ Forall2 (fun table df =>
                     exists more, @read_html toy_libraries (tag_str table) = inr (df :: more))
            (find_all soup "table") dfs
       /\ @workbook_bytes toy_libraries (sheets_from 0 dfs) 7
          = inr (toy_workbook [("Table_1", table_a); ("Table_2", table_b)] 7)
       /\ map fst (sheets_from (L := toy_libraries) 0 dfs)
          = map (fun k => "Table_" ++ PyStr.of_nat k)
              (seq 1 (length (find_all soup "table")))
       /\ List.NoDup (map fst (sheets_from (L := toy_libraries) 0 dfs))
       /\ (<["output.xlsx" := toy_workbook [("Table_1", table_a); ("Table_2", table_b)] 7]> ∅ : FS)
          = <["output.xlsx" := toy_workbook [("Table_1", table_a); ("Table_2", table_b)] 7]> ∅.
Proof.
  split; [reflexivity|].
  apply (save_to_excel_returns_inv (L := toy_libraries) two_tables 7 ∅).
  reflexivity.
Defined.

Lemma save_to_excel_last_call_wins_witness :
  fst (save_to_excel (L := toy_libraries) table_b 7 ∅)
  = inr (toy_workbook [("Table_1", table_b)] 7)
  /\ save_to_excel (L := toy_libraries) table_b 7
       (snd (save_to_excel (L := toy_libraries) table_a 5 ∅))
     = (inr (toy_workbook [("Table_1", table_b)] 7),
        <["output.xlsx" := toy_workbook [("Table_1", table_b)] 7]> ∅).
Proof.
  split; [reflexivity|].
  apply (save_to_excel_last_call_wins (L := toy_libraries) table_a table_b 5 7 ∅).
  reflexivity.
Defined.

Lemma save_to_excel_without_tables_witness :
  save_to_excel (L := toy_libraries) EmptyString 7 ∅
  = (inr (toy_workbook [] 7), <["output.xlsx" := toy_workbook [] 7]> ∅).
Proof.
  apply (save_to_excel_without_tables (L := toy_libraries) EmptyString []);
    reflexivity.
Defined.

Lemma save_to_excel_first_unreadable_table_witness :
  fst (save_to_excel (L := toy_libraries)
         (table_a ++ " " ++ empty_table ++ " " ++ table_b) 7 ∅)
  = inl (@Raised toy_libraries "No tables found").
Proof.
  apply (save_to_excel_first_unreadable_table (L := toy_libraries)
           (table_a ++ " " ++ empty_table ++ " " ++ table_b)
           [table_a; empty_table; table_b] [table_a] empty_table [table_b] [table_a]).
  - reflexivity.
  - reflexivity.
  - reflexivity.
  - repeat constructor. exists []. reflexivity.
  - simpl. auto.
  - reflexivity.
Defined.

Lemma save_to_excel_table_without_frame_witness :
  fst (save_to_excel (L := lax_libraries)
         (table_a ++ " " ++ caption_table ++ " " ++ table_b) 7 ∅)
  = inl IndexError.
Proof.
  apply (save_to_excel_table_without_frame (L := lax_libraries)
           (table_a ++ " " ++ caption_table ++ " " ++ table_b)
           [table_a; caption_table; table_b] [table_a] caption_table [table_b] [table_a]).
  - reflexivity.
  - reflexivity.
  - reflexivity.
  - repeat constructor. exists []. reflexivity.
  - simpl. auto.
  - reflexivity.
Defined.

(** ** The description taken from the docstring *)

Lemma rstrip_head (c : ascii) (r : string) :
  PyStr.isspace c = false -> exists r', PyStr.rstrip (String c r) = String c r'.
Proof.
  intros Hc. simpl. destruct (PyStr.rstrip r); [rewrite Hc|]; eauto.
Qed.

Lemma rstrip_idempotent (s : string) : PyStr.rstrip (PyStr.rstrip s) = PyStr.rstrip s.
Proof.
  induction s as [|c s IH]; [reflexivity|].
  cbn [PyStr.rstrip]. destruct (PyStr.rstrip s) as [|d x] eqn:E.
  - destruct (PyStr.isspace c) eqn:Hc; [reflexivity|].
    cbn [PyStr.rstrip]. now rewrite Hc.
  - cbn [PyStr.rstrip]. cbn [PyStr.rstrip] in IH. now rewrite IH.
Qed.

Lemma lstrip_head (s : string) :
  match PyStr.lstrip s with
  | String c _ => PyStr.isspace c = false
  | EmptyString => True
  end.
Proof.
  induction s as [|c s IH]; simpl; [exact I|].
  destruct (PyStr.isspace c) eqn:Hc; [exact IH | exact Hc].
Qed.

Lemma strip_idempotent (s : string) : PyStr.strip (PyStr.strip s) = PyStr.strip s.
Proof.
  unfold PyStr.strip. pose proof (lstrip_head s) as H.
  destruct (PyStr.lstrip s) as [|c r]; [reflexivity|].
  destruct (rstrip_head c r H) as [r' Hr]. rewrite Hr.
  cbn [PyStr.lstrip]. rewrite H, <- Hr. apply rstrip_idempotent.
Qed.

(** X18: when the object under [__kernel_function__] has no description, or
    an empty one, the description of the entry is the docstring of the method
    with the white space around it removed (the empty string when there is no
    docstring), so that stripping it again changes nothing. *)
Theorem description_from_docstring_is_stripped (cls : PyClass) (name : string)
    (method : PyFunction) (marker : KernelMarker) (entry : dict string) :
  f_kernel_function method = Some marker ->
  truthy (km_description marker) = false ->
  tool_entry cls name method = Some entry ->
  dict_get "description" entry
  = Some match f_doc method with
         | Some doc => PyStr.strip doc
         | None => EmptyString
         end
  /\ forall description,
       dict_get "description" entry = Some description ->
       PyStr.strip description = description.
Proof.
  intros Hm Hfalse (type_hints & _ & ->)%tool_entry_Some.
  assert (Hd : method_description method
               = match f_doc method with
                 | Some doc => PyStr.strip doc
                 | None => EmptyString
                 end).
  { unfold method_description. rewrite Hm.
    destruct (km_description marker) as [[|c d]|]; try discriminate;
      destruct (f_doc method) as [[|c' doc]|]; reflexivity. }
  cbn [dict_get String.eqb Ascii.eqb Bool.eqb]. rewrite Hd.
  split; [reflexivity|]. intros description [= <-].
  destruct (f_doc method) as [doc|]; [apply strip_idempotent | reflexivity].
Qed.

Lemma description_from_docstring_is_stripped_witness :
  exists entry,
    tool_entry HrDocumentTools "save_to_excel" (save_to_excel_function stores_True)
    = Some entry
    /\ dict_get "description" entry = Some (PyStr.strip save_to_excel_doc)
    /\ PyStr.strip save_to_excel_doc
       = String.substring 9 (String.length save_to_excel_doc - 14) save_to_excel_doc
    /\ PyStr.strip (PyStr.strip save_to_excel_doc) = PyStr.strip save_to_excel_doc.
Proof.
  eexists. split; [reflexivity|].
  destruct (description_from_docstring_is_stripped HrDocumentTools "save_to_excel"
              (save_to_excel_function stores_True) {| km_description := None |}
              _ eq_refl eq_refl eq_refl) as (Hdescription & Hstrip).
  split; [exact Hdescription|]. split; [reflexivity|].
  apply Hstrip. exact Hdescription.
Defined.

(** ** When the two helpers agree *)

Lemma filter_ext_In {A} (f g : A -> bool) (l : list A) :
  (forall x, In x l -> f x = g x) -> List.filter f l = List.filter g l.
Proof.
  induction l as [|x l IH]; simpl; intros H; [reflexivity|].
  rewrite (H x) by now left. rewrite IH by (intros y Hy; apply H; now right).
  reflexivity.
Qed.

(** X19: when no function of the class is named after one of the two helpers
    and no function's printed annotations mention [kernel_function], the keys
    of [get_all_kernel_functions] are exactly the functions the manifest
    lists, in the same order. *)
Theorem helpers_agree (cls : PyClass) (tools_list : list (dict string)) :
  List.NoDup (keys (namespace cls)) ->
  (forall name f,
      In (name, Function f) (namespace cls) ->
      name <> "get_all_kernel_functions"
      /\ name <> "generate_tools_json_doc"
      /\ PyStr.contains "kernel_function" (str_annotations (f_annotations f)) = false) ->
  tools_list_of cls = Some tools_list ->
  map (dict_get "function") tools_list
  = map Some (keys (get_all_kernel_functions cls)).
Proof.
  intros Hnd Hfun Htl.
  rewrite (tools_list_function_names _ _ Htl), get_all_kernel_functions_spec by exact Hnd.
  unfold keys. do 2 f_equal. apply filter_ext_In.
  intros [name f] Hin%In_getmembers_isfunction.
  destruct (Hfun name f Hin) as (H1%String.eqb_neq & H2%String.eqb_neq & H3).
  unfold is_tool, is_selected. cbn [fst snd]. rewrite H1, H2, H3.
  now rewrite orb_false_r.
Qed.

Lemma helpers_agree_witness :
  exists tools_list,
    tools_list_of HrDocumentTools = Some tools_list
    /\ map (dict_get "function") tools_list
       = map Some (keys (get_all_kernel_functions HrDocumentTools)).
Proof.
  eexists. split; [vm_compute; reflexivity|].
  apply (helpers_agree HrDocumentTools).
  - apply NoDup_ListNoDup.
    apply (bool_decide_eq_true_1 (NoDup (keys (namespace HrDocumentTools)))).
    vm_compute. reflexivity.
  - intros name f Hin. simpl in Hin.
    repeat (destruct Hin as [Heq | Hin];
            [inversion Heq; subst; repeat split; (discriminate || reflexivity)|]).
    destruct Hin.
  - vm_compute. reflexivity.
Defined.
